(** * pfastcgi: the FastCGI record codec and its socket transport

    A shallow embedding of [pfastcgi.hpp] (namespace [pfcgi]).

    - A C++ [int] is a [Z]; the shifts [>>] and [<<] are [Z.shiftr] and
      [Z.shiftl], [&] and [|] are [Z.land] and [Z.lor].
    - [Byte] ([unsigned char]) is a [Z] in [0, 256); every implicit
      conversion of an [int] to a [Byte] is written out as [to_Byte].
    - A struct is a record whose [bytes] function lists its members in
      declaration order: all members are [Byte]s, so that list is the
      object as [send] sees it.
    - A member that a constructor leaves without an initialiser is
      indeterminate.  Such a constructor takes an extra argument that
      supplies the bytes the member turns out to hold: those of the
      storage it is run on, where the compiler leaves them alone.
    - The system calls are an oracle ([Sys]) and every call is logged in a
      trace of [Event]s. *)

From Stdlib Require Import ZArith List String Ascii Bool Lia.
Import ListNotations.
Local Open Scope Z_scope.

(** ** Integer conversions *)

Definition Byte := Z.

(** [int] to [unsigned char]. *)
Definition to_Byte (x : Z) : Byte := x mod 256.

(** A wider integer ([size_t], [ssize_t]) to a 32-bit [int]. *)
Definition to_int (x : Z) : Z := (x + 2 ^ 31) mod 2 ^ 32 - 2 ^ 31.

Definition is_Byte (b : Z) : Prop := 0 <= b < 256.

Definition kFcgiVersion : Z := 1.
Definition kFcgiKeepAlive : Z := 1.

Inductive FcgiType :=
| kTypeBegin | kTypeAbort | kTypeEnd | kTypeParams | kTypeStdin
| kTypeStdout | kTypeStderr | kTypeData | kTypeGetValues
| kTypeValueResult | kTypeUnknown.

Definition FcgiType_val (t : FcgiType) : Z :=
  match t with
  | kTypeBegin => 1 | kTypeAbort => 2 | kTypeEnd => 3 | kTypeParams => 4
  | kTypeStdin => 5 | kTypeStdout => 6 | kTypeStderr => 7 | kTypeData => 8
  | kTypeGetValues => 9 | kTypeValueResult => 10 | kTypeUnknown => 11
  end.

Inductive FcgiRole := kRoleResponder | kRoleAuthorizer | kRoleFilter.

Definition FcgiRole_val (r : FcgiRole) : Z :=
  match r with
  | kRoleResponder => 1 | kRoleAuthorizer => 2 | kRoleFilter => 3
  end.

(** ** struct FcgiHeader *)

Module FcgiHeader.

Record t := mk {
  version : Byte;
  type : Byte;
  request_id1 : Byte;
  request_id0 : Byte;
  content_length1 : Byte;
  content_length0 : Byte;
  padding_length : Byte;
  reserved : Byte
}.

Definition sizeof : Z := 8.

(** The object representation, in declaration order. *)
Definition bytes (h : t) : list Byte :=
  [version h; type h; request_id1 h; request_id0 h;
   content_length1 h; content_length0 h; padding_length h; reserved h].

(** [FcgiHeader(type, content_length, request_id, padding_length)]:
    every member has an initialiser. *)
Definition ctor (ty : FcgiType) (content_length request_id padding : Z) : t :=
  {| version := to_Byte kFcgiVersion;
     type := to_Byte (FcgiType_val ty);
     request_id1 := to_Byte (Z.land (Z.shiftr request_id 8) 255);
     request_id0 := to_Byte (Z.land request_id 255);
     content_length1 := to_Byte (Z.land (Z.shiftr content_length 8) 255);
     content_length0 := to_Byte (Z.land content_length 255);
     padding_length := to_Byte padding;
     reserved := to_Byte 0 |}.

(** The default arguments [request_id = 1] and [padding_length = 0]. *)
Definition ctor3 (ty : FcgiType) (content_length request_id : Z) : t :=
  ctor ty content_length request_id 0.

Definition ctor2 (ty : FcgiType) (content_length : Z) : t :=
  ctor ty content_length 1 0.

Definition request_id (h : t) : Z :=
  Z.shiftl (request_id1 h) 8 + request_id0 h.

Definition content_length (h : t) : Z :=
  Z.shiftl (content_length1 h) 8 + content_length0 h.

Definition set_request_id (h : t) (request_id : Z) : t :=
  {| version := version h;
     type := type h;
     request_id1 := to_Byte (Z.land (Z.shiftr request_id 8) 255);
     request_id0 := to_Byte (Z.land request_id 255);
     content_length1 := content_length1 h;
     content_length0 := content_length0 h;
     padding_length := padding_length h;
     reserved := reserved h |}.

Definition set_content_length (h : t) (content_length : Z) : t :=
  {| version := version h;
     type := type h;
     request_id1 := request_id1 h;
     request_id0 := request_id0 h;
     content_length1 := to_Byte (Z.land (Z.shiftr content_length 8) 255);
     content_length0 := to_Byte (Z.land content_length 255);
     padding_length := padding_length h;
     reserved := reserved h |}.

End FcgiHeader.

(** ** struct FcgiRequestBeginBody *)

Module FcgiRequestBeginBody.

Record t := mk {
  role1 : Byte;
  role0 : Byte;
  flags : Byte;
  reserved : Byte * Byte * Byte * Byte * Byte   (* Byte reserved[5] *)
}.

Definition sizeof : Z := 8.

Definition bytes (b : t) : list Byte :=
  let '(r0, r1, r2, r3, r4) := reserved b in
  [role1 b; role0 b; flags b; r0; r1; r2; r3; r4].

(** [FcgiRequestBeginBody(int role, bool keep_alive)] names [role1],
    [role0] and [flags] in its initialiser list and has an empty body:
    [reserved] has no initialiser and is indeterminate.  [mem] supplies
    the bytes it turns out to hold: the storage's, where the compiler
    leaves them alone. *)
Definition ctor (mem : t) (role : Z) (keep_alive : bool) : t :=
  {| role1 := to_Byte (Z.land (Z.shiftr role 8) 255);
     role0 := to_Byte (Z.land role 255);
     flags := if keep_alive then 1 else 0;
     reserved := reserved mem |}.

Definition role (b : t) : Z := Z.shiftl (role1 b) 8 + role0 b.

Definition keep_alive (b : t) : bool :=
  negb (Z.land (flags b) kFcgiKeepAlive =? 0).

Definition set_keep_alive (b : t) (keep_alive : bool) : t :=
  {| role1 := role1 b;
     role0 := role0 b;
     flags := to_Byte (if keep_alive then kFcgiKeepAlive else 0);
     reserved := reserved b |}.

Definition set_role (b : t) (role : FcgiRole) : t :=
  {| role1 := to_Byte (Z.land (Z.shiftr (FcgiRole_val role) 8) 255);
     role0 := to_Byte (Z.land (FcgiRole_val role) 255);
     flags := flags b;
     reserved := reserved b |}.

(** Storage holding the five bytes [r] where [reserved] lives. *)
Definition storage (r : Byte * Byte * Byte * Byte * Byte) : t :=
  {| role1 := 0; role0 := 0; flags := 0; reserved := r |}.

End FcgiRequestBeginBody.

(** ** struct FcgiRequestBegin *)

Module FcgiRequestBegin.

Record t := mk {
  header : FcgiHeader.t;
  body : FcgiRequestBeginBody.t
}.

Definition sizeof : Z := FcgiHeader.sizeof + FcgiRequestBeginBody.sizeof.

Definition bytes (m : t) : list Byte :=
  FcgiHeader.bytes (header m) ++ FcgiRequestBeginBody.bytes (body m).

End FcgiRequestBegin.

(** ** struct FcgiParams *)

Module FcgiParams.

Record t := mk {
  name_length3 : Byte;
  name_length2 : Byte;
  name_length1 : Byte;
  name_length0 : Byte;
  value_length3 : Byte;
  value_length2 : Byte;
  value_length1 : Byte;
  value_length0 : Byte
}.

Definition sizeof : Z := 8.

Definition bytes (p : t) : list Byte :=
  [name_length3 p; name_length2 p; name_length1 p; name_length0 p;
   value_length3 p; value_length2 p; value_length1 p; value_length0 p].

(** [FcgiParams(int name_length, int value_length)]. *)
Definition ctor (name_length value_length : Z) : t :=
  {| name_length3 := to_Byte (Z.lor (Z.shiftr name_length 24) 128);
     name_length2 := to_Byte (Z.shiftr name_length 16);
     name_length1 := to_Byte (Z.shiftr name_length 8);
     name_length0 := to_Byte name_length;
     value_length3 := to_Byte (Z.lor (Z.shiftr value_length 24) 128);
     value_length2 := to_Byte (Z.shiftr value_length 16);
     value_length1 := to_Byte (Z.shiftr value_length 8);
     value_length0 := to_Byte value_length |}.

Definition set_name_length (p : t) (name_length : Z) : t :=
  {| name_length3 := to_Byte (Z.lor (Z.shiftr name_length 24) 128);
     name_length2 := to_Byte (Z.shiftr name_length 16);
     name_length1 := to_Byte (Z.shiftr name_length 8);
     name_length0 := to_Byte name_length;
     value_length3 := value_length3 p;
     value_length2 := value_length2 p;
     value_length1 := value_length1 p;
     value_length0 := value_length0 p |}.

(** The source has no reader for the lengths (its [name_length()] is an
    unfinished comment).  This one is written from the claim's words:
    clear the top bit of the leading byte, then recombine the four bytes
    big-endian. *)
Definition spec_decode_length (b3 b2 b1 b0 : Byte) : Z :=
  Z.lor (Z.lor (Z.lor (Z.shiftl (Z.land b3 127) 24) (Z.shiftl b2 16))
               (Z.shiftl b1 8)) b0.

Definition spec_name_length (p : t) : Z :=
  spec_decode_length (name_length3 p) (name_length2 p)
                     (name_length1 p) (name_length0 p).

Definition spec_value_length (p : t) : Z :=
  spec_decode_length (value_length3 p) (value_length2 p)
                     (value_length1 p) (value_length0 p).

End FcgiParams.

(** ** The operating system

    The socket calls are not part of the repository: they are an oracle.
    Every call made is appended to a trace together with what it returned,
    and the oracle sees the trace so far. *)

Definition AF_UNIX : Z := 1.
Definition AF_INET : Z := 2.
Definition SOCK_STREAM : Z := 1.

(** The two bytes of [sin_port], in network order. *)
Definition htons (port : Z) : list Byte :=
  [to_Byte (Z.shiftr port 8); to_Byte port].

Inductive sockaddr :=
| sockaddr_in (sin_port : list Byte) (sin_addr : list Byte)
| sockaddr_un (sun_path : list Byte).

Inductive Event :=
| EvClose (fd : Z)
| EvSocket (domain type protocol : Z) (ret : Z)
| EvConnect (fd : Z) (addr : sockaddr) (len : Z) (ret : Z)
| EvSend (fd : Z) (buf : list Byte) (flags : Z) (ret : Z).

(** Oldest call first. *)
Definition Trace := list Event.

Record Sys := {
  (** [inet_pton(af, src, dst)]: the return value and the bytes put in [dst]. *)
  sys_inet_pton : Z -> string -> Z * list Byte;
  sys_socket : Trace -> Z -> Z -> Z -> Z;
  sys_connect : Trace -> Z -> sockaddr -> Z -> Z;
  sys_send : Trace -> Z -> list Byte -> Z -> Z
}.

(** ** class FcgiManager *)

Module FcgiManager.
Record t := mk { fcgifd_ : Z }.
(** [int fcgifd_ = -1;] *)
Definition init : t := {| fcgifd_ := -1 |}.
End FcgiManager.

(** The object and the world it runs in. *)
Record State := {
  self : FcgiManager.t;
  trace : Trace
}.

(** A member function: it may change the object, make system calls, or
    stop the program ([None], a failed [assert]). *)
Definition M (A : Type) : Type := State -> option (A * State).

Definition ret {A} (a : A) : M A := fun s => Some (a, s).

Definition bind {A B} (m : M A) (k : A -> M B) : M B :=
  fun s => match m s with
           | Some (a, s') => k a s'
           | None => None
           end.

Notation "x <- m ;; k" := (bind m (fun x => k))
  (at level 61, m at next level, right associativity).
Notation "m ;;; k" := (bind m (fun _ => k))
  (at level 61, right associativity).

Definition assert (b : bool) : M unit :=
  fun s => if b then Some (tt, s) else None.

(** One system call: ask the oracle, log the call. *)
Definition syscall (f : Trace -> Z) (ev : Z -> Event) : M Z :=
  fun s =>
    let r := f (trace s) in
    Some (r, {| self := self s; trace := trace s ++ [ev r] |}).

(** [close(fd)]; the source never looks at what it returns. *)
Definition sys_close (fd : Z) : M unit :=
  fun s => Some (tt, {| self := self s; trace := trace s ++ [EvClose fd] |}).

Definition sizeof_sockaddr_in : Z := 16.
Definition offsetof_sun_path : Z := 2.
Definition sizeof_sun_path : Z := 108.

Definition strlen (s : list Byte) : Z := Z.of_nat (List.length s).

Definition bytes_of_string (s : string) : list Byte :=
  map (fun c => Z.of_nat (nat_of_ascii c)) (list_ascii_of_string s).

Section Transport.

Variable sys : Sys.

Definition fcgifd : M Z := fun s => Some (FcgiManager.fcgifd_ (self s), s).

Definition set_fcgifd (fd : Z) : M unit :=
  fun s => Some (tt, {| self := {| FcgiManager.fcgifd_ := fd |};
                        trace := trace s |}).

(** [if (fcgifd_ != -1) close(fcgifd_);] *)
Definition closeSocket : M unit :=
  fd <- fcgifd ;;
  if negb (fd =? -1) then sys_close fd else ret tt.

(** [~FcgiManager() { closeSocket(); }] *)
Definition dtor : M unit := closeSocket.

(** [::send(fcgifd_, buf, length, flags)], its [ssize_t] returned as [int]. *)
Definition doWrite (buf : list Byte) (length : Z) (flags : Z) : M Z :=
  fd <- fcgifd ;;
  let sent := firstn (Z.to_nat length) buf in
  r <- syscall (fun tr => sys_send sys tr fd sent flags)
               (EvSend fd sent flags) ;;
  ret (to_int r).

(** [startParams]: [msg0] supplies the bytes of the local [msg] that no
    initialiser writes. *)
Definition startParams (msg0 : FcgiRequestBegin.t)
    (role : FcgiRole) (keep_alive : bool) (request_id : Z) : M Z :=
  let msg :=
    {| FcgiRequestBegin.header :=
         FcgiHeader.ctor3 kTypeBegin (to_int FcgiRequestBeginBody.sizeof)
                          request_id;
       FcgiRequestBegin.body :=
         FcgiRequestBeginBody.ctor (FcgiRequestBegin.body msg0)
                                   (FcgiRole_val role) keep_alive |} in
  doWrite (FcgiRequestBegin.bytes msg) FcgiRequestBegin.sizeof 0.

Definition sendParams (key value : list Byte) (request_id : Z) : M Z :=
  let kHeaderLength := FcgiParams.sizeof + FcgiHeader.sizeof in
  let key_length := strlen key in
  let value_length := strlen value in
  let all_length := kHeaderLength + key_length + value_length in
  let buf :=
    FcgiHeader.bytes
      (FcgiHeader.ctor3 kTypeParams (to_int (key_length + value_length))
                        request_id)
    ++ FcgiParams.bytes
         (FcgiParams.ctor (to_int key_length) (to_int value_length))
    ++ key ++ value in
  doWrite buf all_length 0.

Definition endParams (requestID : Z) : M Z :=
  let header := FcgiHeader.ctor3 kTypeParams 0 requestID in
  doWrite (FcgiHeader.bytes header) FcgiHeader.sizeof 0.

(** [FcgiManagerINET::start] *)
Definition FcgiManagerINET_start (addr : string) (port : Z) : M Z :=
  assert (0 <=? port) ;;;
  closeSocket ;;;
  let sin_port := htons port in
  let '(r, sin_addr) := sys_inet_pton sys AF_INET addr in
  if r <=? 0 then ret (-1)
  else
    fd <- syscall (fun tr => sys_socket sys tr AF_INET SOCK_STREAM 0)
                  (EvSocket AF_INET SOCK_STREAM 0) ;;
    set_fcgifd fd ;;;
    syscall (fun tr => sys_connect sys tr fd
                         (sockaddr_in sin_port sin_addr) sizeof_sockaddr_in)
            (EvConnect fd (sockaddr_in sin_port sin_addr) sizeof_sockaddr_in).

(** [FcgiManagerINET(addr, port) { start(addr, port); }] on a fresh
    object; the result of [start] is dropped. *)
Definition FcgiManagerINET_ctor (addr : string) (port : Z)
    (tr : Trace) : option State :=
  match FcgiManagerINET_start addr port
          {| self := FcgiManager.init; trace := tr |} with
  | Some (_, s) => Some s
  | None => None
  end.

(** [FcgiManagerUnix::start]; its second argument is not used.  A path
    that does not fit [sun_path] overruns it in [strcpy]: no behaviour. *)
Definition FcgiManagerUnix_start (path : list Byte) (padding : Z) : M Z :=
  closeSocket ;;;
  assert (strlen path <? sizeof_sun_path) ;;;
  let size := to_int (offsetof_sun_path + strlen path) in
  fd <- syscall (fun tr => sys_socket sys tr AF_UNIX SOCK_STREAM 0)
                (EvSocket AF_UNIX SOCK_STREAM 0) ;;
  set_fcgifd fd ;;;
  syscall (fun tr => sys_connect sys tr fd (sockaddr_un path) size)
          (EvConnect fd (sockaddr_un path) size).

End Transport.

(** ** IPv4 address syntax

    Four decimal fields of one to three digits, each at most 255, separated
    by single dots.  [inet_pton] accepts no string outside this set. *)

Definition is_digit (c : ascii) : bool :=
  let n := nat_of_ascii c in ((48 <=? n) && (n <=? 57))%nat.

Fixpoint dot_fields (s : string) (cur : list ascii) : list (list ascii) :=
  match s with
  | EmptyString => [rev cur]
  | String c s' =>
      if Ascii.eqb c "." then rev cur :: dot_fields s' []
      else dot_fields s' (c :: cur)
  end.

Definition decimal (l : list ascii) : Z :=
  fold_left (fun acc c => 10 * acc + (Z.of_nat (nat_of_ascii c) - 48)) l 0.

Definition is_octet (l : list ascii) : bool :=
  ((1 <=? List.length l) && (List.length l <=? 3))%nat
  && forallb is_digit l && (decimal l <=? 255).

Definition is_dotted_quad (s : string) : bool :=
  match dot_fields s [] with
  | [a; b; c; d] => is_octet a && is_octet b && is_octet c && is_octet d
  | _ => false
  end.

(** What the transport needs of [inet_pton]: a string that is not a dotted
    quad is not converted (the call returns 0, or -1 with [errno] set). *)
Definition inet_pton_conforms (sys : Sys) : Prop :=
  forall s, is_dotted_quad s = false -> fst (sys_inet_pton sys AF_INET s) <= 0.

(** What the record builder needs of [send]: it reports an error as -1 or
    the number of bytes it took, never more than it was given. *)
Definition send_conforms (sys : Sys) : Prop :=
  forall tr fd buf flags,
    -1 <= sys_send sys tr fd buf flags <= Z.of_nat (List.length buf).

(** A host on which everything succeeds: [socket] hands out descriptor 3,
    the lowest one free in a process that holds only its standard streams,
    [connect] succeeds and [send] takes the whole buffer. *)
Definition quiet_host : Sys :=
  {| sys_inet_pton := fun af s =>
       if (af =? AF_INET) && is_dotted_quad s
       then (1, map decimal (dot_fields s []))
       else (0, []);
     sys_socket := fun _ _ _ _ => 3;
     sys_connect := fun _ _ _ _ => 0;
     sys_send := fun _ _ buf _ => Z.of_nat (List.length buf) |}.

(** ** Reading a trace *)

Definition is_close_of (fd : Z) (e : Event) : bool :=
  match e with
  | EvClose fd' => fd' =? fd
  | _ => false
  end.

Definition is_socket_of (fd : Z) (e : Event) : bool :=
  match e with
  | EvSocket _ _ _ ret => ret =? fd
  | _ => false
  end.

Definition close_count (fd : Z) (tr : Trace) : nat :=
  List.length (filter (is_close_of fd) tr).

Definition socket_count (fd : Z) (tr : Trace) : nat :=
  List.length (filter (is_socket_of fd) tr).

Definition sends (tr : Trace) : list Event :=
  filter (fun e => match e with EvSend _ _ _ _ => true | _ => false end) tr.

(** Every [close] in [tr] is of a descriptor that [socket] returned and
    that has not been closed since; [open] holds the descriptors open at
    the start. *)
Fixpoint closes_only_open (open : list Z) (tr : Trace) : bool :=
  match tr with
  | [] => true
  | EvSocket _ _ _ fd :: tr' =>
      closes_only_open (if 0 <=? fd then fd :: open else open) tr'
  | EvClose fd :: tr' =>
      existsb (Z.eqb fd) open
      && closes_only_open (filter (fun x => negb (x =? fd)) open) tr'
  | _ :: tr' => closes_only_open open tr'
  end.

(** Running a member function on a given object and trace. *)
Definition run {A} (m : M A) (obj : FcgiManager.t) (tr : Trace)
  : option (A * State) :=
  m {| self := obj; trace := tr |}.

Definition exec {A} (m : M A) (s : State) : option State :=
  match m s with
  | Some (_, s') => Some s'
  | None => None
  end.

(** A client that connects, reconnects once and lets the transport go out
    of scope: constructor, [start], destructor. *)
Definition connect_reconnect_destroy (sys : Sys)
    (addr1 : string) (port1 : Z) (addr2 : string) (port2 : Z)
    (tr : Trace) : option State :=
  match FcgiManagerINET_ctor sys addr1 port1 tr with
  | Some s1 =>
      match FcgiManagerINET_start sys addr2 port2 s1 with
      | Some (_, s2) => exec dtor s2
      | None => None
      end
  | None => None
  end.

(** An object holding descriptor [fd], before any call was logged. *)
Definition holding (fd : Z) : State :=
  {| self := {| FcgiManager.fcgifd_ := fd |}; trace := [] |}.

(** A stack slot for [msg] that held [AA] bytes. *)
Definition stale_msg : FcgiRequestBegin.t :=
  {| FcgiRequestBegin.header := FcgiHeader.mk 170 170 170 170 170 170 170 170;
     FcgiRequestBegin.body :=
       FcgiRequestBeginBody.mk 170 170 170 (170, 170, 170, 170, 170) |}.

(** ** Descriptors open after a trace *)

(** The descriptors open once [tr] has run, [open] being those open before. *)
Fixpoint live (open : list Z) (tr : Trace) : list Z :=
  match tr with
  | [] => open
  | EvSocket _ _ _ fd :: tr' =>
      live (if 0 <=? fd then fd :: open else open) tr'
  | EvClose fd :: tr' => live (filter (fun x => negb (x =? fd)) open) tr'
  | _ :: tr' => live open tr'
  end.

(** [socket] returns -1 or a descriptor. *)
Definition socket_conforms (sys : Sys) : Prop :=
  forall tr domain ty protocol,
    sys_socket sys tr domain ty protocol = -1
    \/ 0 <= sys_socket sys tr domain ty protocol.

(** The object owns exactly what is open: no [close] so far was of a
    descriptor that was not open, and the only descriptor open, if any, is
    the one the object holds. *)
Definition owns_open (s : State) : Prop :=
  closes_only_open [] (trace s) = true
  /\ live [] (trace s)
     = (if FcgiManager.fcgifd_ (self s) =? -1 then []
        else [FcgiManager.fcgifd_ (self s)]).

(** ** Reading

    [recv] is a second oracle.  Its calls are logged beside the trace, with
    what it returned and the bytes it stored in the buffer. *)

Record RecvCall := {
  rc_fd : Z;
  rc_length : Z;
  rc_flags : Z;
  rc_ret : Z;
  rc_data : list Byte
}.

Record Conn := {
  st : State;
  recvs : list RecvCall
}.

(** A header laid over eight bytes of memory. *)
Definition FcgiHeader_of_bytes (l : list Byte) : FcgiHeader.t :=
  FcgiHeader.mk (nth 0 l 0) (nth 1 l 0) (nth 2 l 0) (nth 3 l 0)
                (nth 4 l 0) (nth 5 l 0) (nth 6 l 0) (nth 7 l 0).

Section Reading.

Variable sys_recv : Trace -> list RecvCall -> Z -> Z -> Z -> Z * list Byte.

(** [::recv(fcgifd_, buf, length, flags)]: the result as [int] and the
    buffer after the call.  [recv] stores at most [length] bytes, over the
    start of [buf]. *)
Definition doRead (buf : list Byte) (length flags : Z) (c : Conn)
  : Z * list Byte * Conn :=
  let fd := FcgiManager.fcgifd_ (self (st c)) in
  let '(r, data) := sys_recv (trace (st c)) (recvs c) fd length flags in
  let stored := firstn (Z.to_nat length) data in
  (to_int r,
   stored ++ skipn (List.length stored) buf,
   {| st := st c;
      recvs := recvs c ++ [{| rc_fd := fd; rc_length := length;
                              rc_flags := flags; rc_ret := r;
                              rc_data := stored |}] |}).

(** [readHeader]: [header0] is what the storage of the local [header] held
    (its constructor is [FcgiHeader() {}]); the result of [doRead] is
    dropped. *)
Definition readHeader (header0 : FcgiHeader.t) (c : Conn)
  : FcgiHeader.t * Conn :=
  let '(_, buf, c') := doRead (FcgiHeader.bytes header0) FcgiHeader.sizeof 0 c in
  (FcgiHeader_of_bytes buf, c').

End Reading.

(** [recv] reports an error as -1 and stores nothing then; otherwise it
    returns how many bytes it stored, at most [length]. *)
Definition recv_conforms
    (sys_recv : Trace -> list RecvCall -> Z -> Z -> Z -> Z * list Byte) : Prop :=
  forall tr log fd len flags,
    let '(r, data) := sys_recv tr log fd len flags in
    (r = -1 /\ data = [])
    \/ (0 <= r <= len /\ Z.of_nat (List.length data) = r).

(** An object holding descriptor [fd] on a connection nothing was read
    from yet. *)
Definition fresh_conn (fd : Z) : Conn := {| st := holding fd; recvs := [] |}.

(** ** The Unix transport over its life *)

(** [FcgiManagerUnix(path) { start(path); }] on a fresh object; the result
    of [start] is dropped. *)
Definition FcgiManagerUnix_ctor (sys : Sys) (path : list Byte)
    (tr : Trace) : option State :=
  exec (FcgiManagerUnix_start sys path 0)
       {| self := FcgiManager.init; trace := tr |}.

(** A client that calls [start] again for each path of a list, dropping
    the results. *)
Fixpoint unix_restarts (sys : Sys) (paths : list (list Byte)) : M unit :=
  match paths with
  | [] => ret tt
  | path :: rest =>
      FcgiManagerUnix_start sys path 0 ;;; unix_restarts sys rest
  end.

(** A peer that answers every [recv] with the header of an end-request
    record for request 1. *)
Definition end_request_peer
  : Trace -> list RecvCall -> Z -> Z -> Z -> Z * list Byte :=
  fun _ _ _ _ _ => (8, FcgiHeader.bytes (FcgiHeader.ctor kTypeEnd 8 1 0)).

(** A connection on which every [recv] fails. *)
Definition broken_peer
  : Trace -> list RecvCall -> Z -> Z -> Z -> Z * list Byte :=
  fun _ _ _ _ _ => (-1, []).

(** Four bytes read as one big-endian number. *)
Definition be32 (b3 b2 b1 b0 : Byte) : Z :=
  ((b3 * 256 + b2) * 256 + b1) * 256 + b0.

(** * Properties *)

(** ** Bytes and 16-bit fields *)

Lemma land_255 (x : Z) : Z.land x 255 = x mod 256.
Proof. exact (Z.land_ones x 8 ltac:(lia)). Qed.

Lemma to_Byte_range (x : Z) : is_Byte (to_Byte x).
Proof. unfold is_Byte, to_Byte. apply Z.mod_pos_bound. lia. Qed.

Lemma to_Byte_small (x : Z) : 0 <= x < 256 -> to_Byte x = x.
Proof. intros H. unfold to_Byte. now apply Z.mod_small. Qed.

Lemma to_Byte_land_255 (x : Z) : to_Byte (Z.land x 255) = x mod 256.
Proof. rewrite land_255. unfold to_Byte. apply Z.mod_mod. lia. Qed.

(** The high and the low byte of [v], recombined with a shift and a sum. *)
Lemma split_combine (v : Z) :
  Z.shiftl (to_Byte (Z.land (Z.shiftr v 8) 255)) 8 + to_Byte (Z.land v 255)
  = v mod 65536.
Proof.
  rewrite !to_Byte_land_255, Z.shiftr_div_pow2, Z.shiftl_mul_pow2 by lia.
  change (2 ^ 8) with 256.
  change 65536 with (256 * 256).
  rewrite (Z.rem_mul_r v 256 256) by lia.
  lia.
Qed.

(** A number below [2 ^ k] shares no bit with a multiple of [2 ^ k]: on
    such a pair [|] and [+] agree. *)
Lemma lor_shiftl_add (a b k : Z) :
  0 <= k -> 0 <= b < 2 ^ k -> Z.lor (Z.shiftl a k) b = Z.shiftl a k + b.
Proof.
  intros Hk Hb.
  rewrite <- Z.add_lor_land.
  assert (E : Z.land (Z.shiftl a k) b = 0).
  { apply Z.bits_inj'. intros i Hi.
    rewrite Z.land_spec, Z.bits_0.
    destruct (Z.lt_ge_cases i k) as [Hlt | Hge].
    - rewrite Z.shiftl_spec_low by assumption. reflexivity.
    - rewrite <- (Z.mod_small b (2 ^ k)) by assumption.
      rewrite Z.mod_pow2_bits_high by lia.
      apply andb_false_r. }
  rewrite E. lia.
Qed.

Lemma combine_is_lor (hi lo : Z) :
  is_Byte lo -> Z.shiftl hi 8 + lo = Z.lor (Z.shiftl hi 8) lo.
Proof.
  intros H. symmetry. apply lor_shiftl_add; [lia | exact H].
Qed.

(** Reduce the accessors of a header built by a setter or a constructor
    down to its stored bytes, leaving the arithmetic alone. *)
Ltac header_fields :=
  unfold FcgiHeader.request_id, FcgiHeader.content_length;
  cbn [FcgiHeader.request_id1 FcgiHeader.request_id0
       FcgiHeader.content_length1 FcgiHeader.content_length0
       FcgiHeader.set_request_id FcgiHeader.set_content_length
       FcgiHeader.ctor FcgiHeader.ctor3 FcgiHeader.ctor2].

(** C2: for every 16-bit [v], storing [v] as [request_id] (or as
    [content_length]) through the setter or the constructor and reading it
    back gives [v]; on the two bytes stored, the accessor's [(hi << 8) + lo]
    is [(hi << 8) | lo]. *)
Theorem header_u16_roundtrip (h : FcgiHeader.t) (v : Z) :
  0 <= v < 65536 ->
  let hr := FcgiHeader.set_request_id h v in
  let hc := FcgiHeader.set_content_length h v in
  FcgiHeader.request_id hr = v
  /\ FcgiHeader.content_length hc = v
  /\ (forall ty cl pad,
        FcgiHeader.request_id (FcgiHeader.ctor ty cl v pad) = v)
  /\ (forall ty rid pad,
        FcgiHeader.content_length (FcgiHeader.ctor ty v rid pad) = v)
  /\ FcgiHeader.request_id hr
     = Z.lor (Z.shiftl (FcgiHeader.request_id1 hr) 8)
             (FcgiHeader.request_id0 hr)
  /\ FcgiHeader.content_length hc
     = Z.lor (Z.shiftl (FcgiHeader.content_length1 hc) 8)
             (FcgiHeader.content_length0 hc).
Proof.
  intros Hv hr hc.
  assert (E : v mod 65536 = v) by (apply Z.mod_small; lia).
  subst hr hc.
  repeat split; intros; header_fields;
    try (rewrite split_combine; exact E);
    apply combine_is_lor, to_Byte_range.
Qed.

Lemma header_u16_roundtrip_witness :
  FcgiHeader.request_id
    (FcgiHeader.set_request_id (FcgiHeader.ctor2 kTypeStdin 0) 51966) = 51966.
Proof.
  apply (header_u16_roundtrip (FcgiHeader.ctor2 kTypeStdin 0) 51966).
  lia.
Defined.

(** C3: an input above 65535 is stored without any check and loses its
    high bits: what is read back is the input modulo [2 ^ 16], which is not
    the input.  The setters and the constructor are total functions: there
    is no error result. *)
Theorem header_u16_truncates (h : FcgiHeader.t) (v : Z) :
  65535 < v ->
  FcgiHeader.request_id (FcgiHeader.set_request_id h v) = v mod 2 ^ 16
  /\ FcgiHeader.content_length (FcgiHeader.set_content_length h v)
     = v mod 2 ^ 16
  /\ (forall ty cl pad,
        FcgiHeader.request_id (FcgiHeader.ctor ty cl v pad) = v mod 2 ^ 16)
  /\ (forall ty rid pad,
        FcgiHeader.content_length (FcgiHeader.ctor ty v rid pad)
        = v mod 2 ^ 16)
  /\ v mod 2 ^ 16 <> v.
Proof.
  intros Hv.
  change (2 ^ 16) with 65536.
  repeat split; intros; header_fields; try apply split_combine.
  pose proof (Z.mod_pos_bound v 65536 ltac:(lia)). lia.
Qed.

Lemma header_u16_truncates_witness :
  FcgiHeader.request_id
    (FcgiHeader.set_request_id (FcgiHeader.ctor2 kTypeStdin 0) 65537) = 1.
Proof.
  apply (header_u16_truncates (FcgiHeader.ctor2 kTypeStdin 0) 65537).
  lia.
Defined.

(** ** Records on the wire *)

Lemma FcgiHeader_bytes_length (h : FcgiHeader.t) :
  Z.of_nat (List.length (FcgiHeader.bytes h)) = FcgiHeader.sizeof.
Proof. reflexivity. Qed.

Lemma FcgiRequestBeginBody_bytes_length (b : FcgiRequestBeginBody.t) :
  Z.of_nat (List.length (FcgiRequestBeginBody.bytes b))
  = FcgiRequestBeginBody.sizeof.
Proof.
  unfold FcgiRequestBeginBody.bytes.
  destruct (FcgiRequestBeginBody.reserved b) as [[[[r0 r1] r2] r3] r4].
  reflexivity.
Qed.

Lemma FcgiRequestBegin_bytes_length (m : FcgiRequestBegin.t) :
  Z.of_nat (List.length (FcgiRequestBegin.bytes m)) = FcgiRequestBegin.sizeof.
Proof.
  unfold FcgiRequestBegin.bytes, FcgiRequestBegin.sizeof.
  rewrite length_app, Nat2Z.inj_add.
  now rewrite FcgiHeader_bytes_length, FcgiRequestBeginBody_bytes_length.
Qed.

(** C4: the header of a begin-request record with content length 8 and
    request id 1 is [01 01 00 01 00 08 00 00]; whatever the arguments, the
    version byte is 1 and the reserved byte is 0. *)
Theorem header_begin_bytes :
  FcgiHeader.bytes (FcgiHeader.ctor3 kTypeBegin 8 1) = [1; 1; 0; 1; 0; 8; 0; 0]
  /\ forall ty cl rid pad,
       FcgiHeader.version (FcgiHeader.ctor ty cl rid pad) = 1
       /\ FcgiHeader.reserved (FcgiHeader.ctor ty cl rid pad) = 0.
Proof. split; [reflexivity | intros; split; reflexivity]. Qed.

(** The three bytes the begin-request constructor does write. *)
Lemma begin_body_written (mem : FcgiRequestBeginBody.t) (keep_alive : bool) :
  firstn 3 (FcgiRequestBeginBody.bytes
              (FcgiRequestBeginBody.ctor mem 1 keep_alive))
  = [0; 1; if keep_alive then 1 else 0].
Proof.
  unfold FcgiRequestBeginBody.bytes.
  cbn [FcgiRequestBeginBody.reserved FcgiRequestBeginBody.ctor].
  destruct (FcgiRequestBeginBody.reserved mem) as [[[[r0 r1] r2] r3] r4].
  reflexivity.
Qed.

(** The five bytes it does not: they are the storage's. *)
Lemma begin_body_reserved_kept (mem : FcgiRequestBeginBody.t)
    (role : Z) (keep_alive : bool) :
  skipn 3 (FcgiRequestBeginBody.bytes
             (FcgiRequestBeginBody.ctor mem role keep_alive))
  = skipn 3 (FcgiRequestBeginBody.bytes mem).
Proof.
  unfold FcgiRequestBeginBody.bytes.
  cbn [FcgiRequestBeginBody.reserved FcgiRequestBeginBody.ctor].
  destruct (FcgiRequestBeginBody.reserved mem) as [[[[r0 r1] r2] r3] r4].
  reflexivity.
Qed.

(** On zeroed storage the body is the sequence of the specification. *)
Lemma begin_body_on_zeroed_storage :
  FcgiRequestBeginBody.bytes
    (FcgiRequestBeginBody.ctor
       (FcgiRequestBeginBody.storage (0, 0, 0, 0, 0)) 1 true)
  = [0; 1; 1; 0; 0; 0; 0; 0].
Proof. reflexivity. Qed.

(** C5, at the failing input: built over storage that held [AA] bytes, the
    begin-request body for role 1 with keep-alive is
    [00 01 01 AA AA AA AA AA], not [00 01 01 00 00 00 00 00]: the
    constructor has no initialiser for [reserved]. *)
Theorem begin_body_reserved_indeterminate :
  let body :=
    FcgiRequestBeginBody.ctor
      (FcgiRequestBeginBody.storage (170, 170, 170, 170, 170)) 1 true in
  FcgiRequestBeginBody.bytes body = [0; 1; 1; 170; 170; 170; 170; 170]
  /\ FcgiRequestBeginBody.bytes body <> [0; 1; 1; 0; 0; 0; 0; 0].
Proof. split; [reflexivity | discriminate]. Qed.

(** ** The params length prefix *)

(** One byte comes off the low end of a shifted length. *)
Lemma shiftr_peel (n k : Z) :
  0 <= k -> Z.shiftr n k = 256 * Z.shiftr n (k + 8) + to_Byte (Z.shiftr n k).
Proof.
  intros Hk.
  rewrite <- (Z.shiftr_shiftr n k 8) by lia.
  rewrite (Z.shiftr_div_pow2 (Z.shiftr n k) 8) by lia.
  change (2 ^ 8) with 256. unfold to_Byte.
  apply Z.div_mod. lia.
Qed.

(** Forcing bit 7 of a byte: the low seven bits stay, 128 is added. *)
Lemma leading_byte_any (q : Z) : to_Byte (Z.lor q 128) = 128 + q mod 128.
Proof.
  unfold to_Byte. rewrite <- land_255, Z.land_lor_distr_l.
  change (Z.land 128 255) with 128. rewrite land_255.
  change 256 with (128 * 2). rewrite (Z.rem_mul_r q 128 2) by lia.
  pose proof (Z.mod_pos_bound q 128 ltac:(lia)) as Hy.
  pose proof (Z.mod_pos_bound (q / 128) 2 ltac:(lia)) as Ht.
  set (y := q mod 128) in *. set (t := (q / 128) mod 2) in *.
  assert (E : Z.lor 128 y = 128 + y)
    by (change 128 with (Z.shiftl 1 7); apply lor_shiftl_add; lia).
  assert (Ht' : t = 0 \/ t = 1) by lia.
  destruct Ht' as [-> | ->].
  - rewrite Z.mul_0_r, Z.add_0_r, Z.lor_comm. exact E.
  - replace (y + 128 * 1) with (Z.lor 128 y) by lia.
    rewrite (Z.lor_comm 128 y), <- Z.lor_assoc, Z.lor_diag, Z.lor_comm.
    exact E.
Qed.

(** The four bytes written for a length, read big-endian: bit 31 is set
    and the 31 bits below are those of the length. *)
Lemma long_form_value (n : Z) :
  be32 (to_Byte (Z.lor (Z.shiftr n 24) 128)) (to_Byte (Z.shiftr n 16))
       (to_Byte (Z.shiftr n 8)) (to_Byte n)
  = 2 ^ 31 + n mod 2 ^ 31.
Proof.
  rewrite leading_byte_any. unfold be32.
  pose proof (shiftr_peel n 0 ltac:(lia)) as P0.
  pose proof (shiftr_peel n 8 ltac:(lia)) as P1.
  pose proof (shiftr_peel n 16 ltac:(lia)) as P2.
  rewrite Z.shiftr_0_r in P0.
  change (0 + 8) with 8 in P0. change (8 + 8) with 16 in P1.
  change (16 + 8) with 24 in P2.
  pose proof (to_Byte_range (Z.shiftr n 16)) as H2.
  pose proof (to_Byte_range (Z.shiftr n 8)) as H1.
  pose proof (to_Byte_range n) as H0.
  unfold is_Byte in *.
  pose proof (Z.div_mod (Z.shiftr n 24) 128 ltac:(lia)) as D.
  pose proof (Z.mod_pos_bound (Z.shiftr n 24) 128 ltac:(lia)) as Hq.
  change (2 ^ 31) with 2147483648.
  rewrite <- (Z.mod_unique n 2147483648 (Z.shiftr n 24 / 128)
                ((((Z.shiftr n 24 mod 128) * 256 + to_Byte (Z.shiftr n 16))
                    * 256 + to_Byte (Z.shiftr n 8)) * 256 + to_Byte n));
    lia.
Qed.

Lemma forced_top_bit (x : Z) :
  Z.testbit (to_Byte (Z.lor (Z.shiftr x 24) 128)) 7 = true.
Proof.
  unfold to_Byte. change 256 with (2 ^ 8).
  rewrite Z.mod_pow2_bits_low by lia.
  rewrite Z.lor_spec.
  change (Z.testbit 128 7) with true.
  apply orb_true_r.
Qed.

(** C6: whatever the two lengths, the prefix is eight bytes, each a byte,
    in two groups of four.  The first byte of each group has its top bit
    set, and each group read big-endian is [2^31] plus the length modulo
    [2^31]: bit 31 forced, the 31 bits below those of the length.  For the
    lengths 1 and 1 the prefix is [80 00 00 01 80 00 00 01]. *)
Theorem params_prefix_long_form (name_length value_length : Z) :
  let w := FcgiParams.bytes (FcgiParams.ctor name_length value_length) in
  List.length w = 8%nat
  /\ Forall is_Byte w
  /\ Z.testbit (nth 0 w 0) 7 = true
  /\ Z.testbit (nth 4 w 0) 7 = true
  /\ be32 (nth 0 w 0) (nth 1 w 0) (nth 2 w 0) (nth 3 w 0)
     = 2 ^ 31 + name_length mod 2 ^ 31
  /\ be32 (nth 4 w 0) (nth 5 w 0) (nth 6 w 0) (nth 7 w 0)
     = 2 ^ 31 + value_length mod 2 ^ 31
  /\ FcgiParams.bytes (FcgiParams.ctor 1 1) = [128; 0; 0; 1; 128; 0; 0; 1].
Proof.
  intros w. subst w.
  unfold FcgiParams.bytes, FcgiParams.ctor.
  cbn [FcgiParams.name_length3 FcgiParams.name_length2 FcgiParams.name_length1
       FcgiParams.name_length0 FcgiParams.value_length3
       FcgiParams.value_length2 FcgiParams.value_length1
       FcgiParams.value_length0 nth List.length].
  split; [reflexivity |].
  split; [repeat constructor; apply to_Byte_range |].
  split; [apply forced_top_bit |].
  split; [apply forced_top_bit |].
  split; [apply long_form_value |].
  split; [apply long_form_value | reflexivity].
Qed.

(** The leading byte of a 31-bit length: its low seven bits are the top
    seven bits of the length. *)
Lemma leading_byte_low_bits (n : Z) :
  0 <= n < 2 ^ 31 ->
  Z.land (to_Byte (Z.lor (Z.shiftr n 24) 128)) 127 = Z.shiftr n 24.
Proof.
  intros Hn.
  assert (Hq : 0 <= Z.shiftr n 24 < 2 ^ 7).
  { rewrite Z.shiftr_div_pow2 by lia. split.
    - apply Z.div_pos; lia.
    - apply Z.div_lt_upper_bound; lia. }
  rewrite Z.lor_comm.
  change 128 with (Z.shiftl 1 7).
  rewrite lor_shiftl_add by lia.
  change (Z.shiftl 1 7) with 128.
  rewrite to_Byte_small by lia.
  change 127 with (Z.ones 7).
  rewrite Z.land_ones by lia.
  change (2 ^ 7) with 128 in *.
  rewrite <- (Z.mod_unique (128 + Z.shiftr n 24) 128 1 (Z.shiftr n 24)); lia.
Qed.

Lemma decode_long_form (n : Z) :
  0 <= n < 2 ^ 31 ->
  FcgiParams.spec_decode_length
    (to_Byte (Z.lor (Z.shiftr n 24) 128)) (to_Byte (Z.shiftr n 16))
    (to_Byte (Z.shiftr n 8)) (to_Byte n) = n.
Proof.
  intros Hn. unfold FcgiParams.spec_decode_length.
  rewrite leading_byte_low_bits by assumption.
  pose proof (to_Byte_range (Z.shiftr n 16)) as H2.
  pose proof (to_Byte_range (Z.shiftr n 8)) as H1.
  pose proof (to_Byte_range n) as H0.
  unfold is_Byte in *.
  (* fold the three [|] from the inside out, each over one more byte *)
  replace (Z.shiftl (Z.shiftr n 24) 24)
    with (Z.shiftl (Z.shiftl (Z.shiftr n 24) 8) 16)
    by (rewrite Z.shiftl_shiftl by lia; reflexivity).
  rewrite <- Z.shiftl_lor.
  rewrite (lor_shiftl_add (Z.shiftr n 24) _ 8) by lia.
  replace (Z.shiftl (Z.shiftl (Z.shiftr n 24) 8 + to_Byte (Z.shiftr n 16)) 16)
    with (Z.shiftl
            (Z.shiftl (Z.shiftl (Z.shiftr n 24) 8 + to_Byte (Z.shiftr n 16)) 8)
            8)
    by (rewrite Z.shiftl_shiftl by lia; reflexivity).
  rewrite <- Z.shiftl_lor.
  rewrite (lor_shiftl_add _ (to_Byte (Z.shiftr n 8)) 8) by lia.
  rewrite (lor_shiftl_add _ (to_Byte n) 8) by lia.
  rewrite !Z.shiftl_mul_pow2 by lia. change (2 ^ 8) with 256.
  pose proof (shiftr_peel n 0 ltac:(lia)) as P0.
  pose proof (shiftr_peel n 8 ltac:(lia)) as P1.
  pose proof (shiftr_peel n 16 ltac:(lia)) as P2.
  rewrite Z.shiftr_0_r in P0.
  change (0 + 8) with 8 in P0. change (8 + 8) with 16 in P1.
  change (16 + 8) with 24 in P2.
  lia.
Qed.

(** C10: for lengths in [[0, 2^31)], clearing the top bit of the leading
    byte of each group and recombining the four bytes big-endian gives the
    lengths back. *)
Theorem params_prefix_recoverable (name_length value_length : Z) :
  0 <= name_length < 2 ^ 31 ->
  0 <= value_length < 2 ^ 31 ->
  let p := FcgiParams.ctor name_length value_length in
  FcgiParams.spec_name_length p = name_length
  /\ FcgiParams.spec_value_length p = value_length.
Proof.
  intros Hn Hv p. subst p.
  unfold FcgiParams.spec_name_length, FcgiParams.spec_value_length,
    FcgiParams.ctor.
  cbn [FcgiParams.name_length3 FcgiParams.name_length2 FcgiParams.name_length1
       FcgiParams.name_length0 FcgiParams.value_length3
       FcgiParams.value_length2 FcgiParams.value_length1
       FcgiParams.value_length0].
  split; apply decode_long_form; assumption.
Qed.

Lemma params_prefix_recoverable_witness :
  FcgiParams.spec_name_length (FcgiParams.ctor 300 70000) = 300
  /\ FcgiParams.spec_value_length (FcgiParams.ctor 300 70000) = 70000.
Proof. apply (params_prefix_recoverable 300 70000); lia. Defined.

(** ** The record builder *)

Lemma to_int_small (x : Z) : - 2 ^ 31 <= x < 2 ^ 31 -> to_int x = x.
Proof.
  intros H. unfold to_int.
  rewrite Z.mod_small by lia. lia.
Qed.

(** [doWrite] is one [send] on the object's descriptor, logged once; the
    object is left as it was. *)
Lemma doWrite_spec (sys : Sys) (buf : list Byte) (len flags : Z) (s : State) :
  let fd := FcgiManager.fcgifd_ (self s) in
  let sent := firstn (Z.to_nat len) buf in
  let r := sys_send sys (trace s) fd sent flags in
  doWrite sys buf len flags s
  = Some (to_int r,
          {| self := self s; trace := trace s ++ [EvSend fd sent flags r] |}).
Proof. reflexivity. Qed.

Lemma firstn_sizeof (buf : list Byte) (n : Z) :
  Z.of_nat (List.length buf) = n -> firstn (Z.to_nat n) buf = buf.
Proof.
  intros <-. rewrite Nat2Z.id. apply firstn_all.
Qed.

(** C7: for every role, keep-alive flag and request id, [startParams]
    makes exactly one [send], of 16 bytes: the 8 bytes of a begin-request
    header (type 1, content length 8, the given request id) followed by the
    8 bytes of the begin-request body.  It returns what [send] returned:
    an error or a byte count, when [send] keeps to its contract. *)
Theorem startParams_one_write (sys : Sys) (msg0 : FcgiRequestBegin.t)
    (role : FcgiRole) (keep_alive : bool) (request_id : Z) (s : State) :
  exists buf r,
    startParams sys msg0 role keep_alive request_id s
    = Some (to_int r,
            {| self := self s;
               trace := trace s
                          ++ [EvSend (FcgiManager.fcgifd_ (self s)) buf 0 r] |})
    /\ r = sys_send sys (trace s) (FcgiManager.fcgifd_ (self s)) buf 0
    /\ List.length buf = 16%nat
    /\ buf = FcgiHeader.bytes (FcgiHeader.ctor kTypeBegin 8 request_id 0)
             ++ FcgiRequestBeginBody.bytes
                  (FcgiRequestBeginBody.ctor (FcgiRequestBegin.body msg0)
                                             (FcgiRole_val role) keep_alive)
    /\ List.length (FcgiHeader.bytes (FcgiHeader.ctor kTypeBegin 8 request_id 0))
       = 8%nat
    /\ (send_conforms sys -> to_int r = r /\ -1 <= r <= 16).
Proof.
  unfold startParams.
  set (msg := {| FcgiRequestBegin.header := _; FcgiRequestBegin.body := _ |}).
  rewrite doWrite_spec.
  rewrite (firstn_sizeof _ _ (FcgiRequestBegin_bytes_length msg)).
  pose proof (FcgiRequestBegin_bytes_length msg) as Hlen.
  change FcgiRequestBegin.sizeof with 16 in Hlen.
  eexists. eexists. split; [reflexivity |].
  split; [reflexivity |].
  split; [lia |].
  split; [reflexivity |].
  split; [reflexivity |].
  intros Hsend.
  specialize (Hsend (trace s) (FcgiManager.fcgifd_ (self s))
                    (FcgiRequestBegin.bytes msg) 0).
  rewrite Hlen in Hsend.
  split; [apply to_int_small |]; lia.
Qed.

(** C8: for every request id, [endParams] makes exactly one [send], of the
    8 bytes of a header whose type byte is 4 (params) and whose two content
    length bytes are 0.  It returns what [send] returned. *)
Theorem endParams_terminator (sys : Sys) (requestID : Z) (s : State) :
  exists buf r,
    endParams sys requestID s
    = Some (to_int r,
            {| self := self s;
               trace := trace s
                          ++ [EvSend (FcgiManager.fcgifd_ (self s)) buf 0 r] |})
    /\ r = sys_send sys (trace s) (FcgiManager.fcgifd_ (self s)) buf 0
    /\ List.length buf = 8%nat
    /\ buf = FcgiHeader.bytes (FcgiHeader.ctor kTypeParams 0 requestID 0)
    /\ nth 1 buf 0 = FcgiType_val kTypeParams
    /\ nth 4 buf 0 = 0
    /\ nth 5 buf 0 = 0
    /\ (send_conforms sys -> to_int r = r /\ -1 <= r <= 8).
Proof.
  unfold endParams.
  set (header := FcgiHeader.ctor3 kTypeParams 0 requestID).
  rewrite doWrite_spec.
  rewrite (firstn_sizeof _ _ (FcgiHeader_bytes_length header)).
  eexists. eexists. split; [reflexivity |].
  do 6 (split; [reflexivity |]).
  intros Hsend.
  specialize (Hsend (trace s) (FcgiManager.fcgifd_ (self s))
                    (FcgiHeader.bytes header) 0).
  change (Z.of_nat (List.length (FcgiHeader.bytes header))) with 8 in Hsend.
  split; [apply to_int_small |]; lia.
Qed.

Lemma quiet_host_send_conforms : send_conforms quiet_host.
Proof. intros tr fd buf flags. cbn. lia. Qed.

Lemma quiet_host_inet_pton_conforms : inet_pton_conforms quiet_host.
Proof.
  intros a Ha. unfold quiet_host. cbn [sys_inet_pton].
  rewrite Ha, andb_false_r. cbn. lia.
Qed.

Lemma startParams_one_write_witness :
  send_conforms quiet_host
  /\ exists buf r,
       startParams quiet_host stale_msg kRoleResponder true 1 (holding 3)
       = Some (to_int r,
               {| self := self (holding 3);
                  trace := trace (holding 3) ++ [EvSend 3 buf 0 r] |})
       /\ r = sys_send quiet_host (trace (holding 3)) 3 buf 0
       /\ List.length buf = 16%nat
       /\ buf = FcgiHeader.bytes (FcgiHeader.ctor kTypeBegin 8 1 0)
                ++ FcgiRequestBeginBody.bytes
                     (FcgiRequestBeginBody.ctor
                        (FcgiRequestBegin.body stale_msg)
                        (FcgiRole_val kRoleResponder) true)
       /\ List.length (FcgiHeader.bytes (FcgiHeader.ctor kTypeBegin 8 1 0))
          = 8%nat
       /\ (send_conforms quiet_host -> to_int r = r /\ -1 <= r <= 16).
Proof.
  split.
  - exact quiet_host_send_conforms.
  - exact (startParams_one_write quiet_host stale_msg kRoleResponder true 1
                                 (holding 3)).
Defined.

Lemma endParams_terminator_witness :
  send_conforms quiet_host
  /\ exists buf r,
       endParams quiet_host 1 (holding 3)
       = Some (to_int r,
               {| self := self (holding 3);
                  trace := trace (holding 3) ++ [EvSend 3 buf 0 r] |})
       /\ r = sys_send quiet_host (trace (holding 3)) 3 buf 0
       /\ List.length buf = 8%nat
       /\ buf = FcgiHeader.bytes (FcgiHeader.ctor kTypeParams 0 1 0)
       /\ nth 1 buf 0 = FcgiType_val kTypeParams
       /\ nth 4 buf 0 = 0
       /\ nth 5 buf 0 = 0
       /\ (send_conforms quiet_host -> to_int r = r /\ -1 <= r <= 8).
Proof.
  split.
  - exact quiet_host_send_conforms.
  - exact (endParams_terminator quiet_host 1 (holding 3)).
Defined.

(** ** The transport *)

(** With no socket open, [closeSocket] makes no call and changes nothing. *)
Lemma closeSocket_unopened (s : State) :
  FcgiManager.fcgifd_ (self s) = -1 -> closeSocket s = Some (tt, s).
Proof.
  intros H. unfold closeSocket, bind, fcgifd. rewrite H. reflexivity.
Qed.

(** With a socket open, it closes it and keeps the descriptor's number. *)
Lemma closeSocket_open (s : State) :
  FcgiManager.fcgifd_ (self s) <> -1 ->
  closeSocket s
  = Some (tt, {| self := self s;
                 trace := trace s ++ [EvClose (FcgiManager.fcgifd_ (self s))] |}).
Proof.
  intros H. unfold closeSocket, bind, fcgifd.
  destruct (Z.eqb_spec (FcgiManager.fcgifd_ (self s)) (-1)) as [E | _].
  - contradiction.
  - reflexivity.
Qed.

Lemma closeSocket_total (s : State) :
  exists s', closeSocket s = Some (tt, s') /\ self s' = self s.
Proof.
  destruct (Z.eq_dec (FcgiManager.fcgifd_ (self s)) (-1)) as [E | N].
  - exists s. split; [now apply closeSocket_unopened | reflexivity].
  - eexists. split; [now apply closeSocket_open | reflexivity].
Qed.

(** [start] on an address that [inet_pton] does not convert: the old socket
    is closed, nothing else happens and the result is -1. *)
Lemma inet_start_not_converted (sys : Sys) (addr : string) (port : Z)
    (s : State) :
  0 <= port ->
  fst (sys_inet_pton sys AF_INET addr) <= 0 ->
  exists s', closeSocket s = Some (tt, s')
             /\ FcgiManagerINET_start sys addr port s = Some (-1, s').
Proof.
  intros Hport Hpton.
  destruct (closeSocket_total s) as (s' & Hclose & _).
  exists s'. split; [exact Hclose |].
  unfold FcgiManagerINET_start, bind, assert.
  destruct (Z.leb_spec 0 port) as [_ | Hneg]; [| lia].
  rewrite Hclose.
  destruct (sys_inet_pton sys AF_INET addr) as [r sin_addr].
  cbn [fst] in Hpton.
  destruct (Z.leb_spec r 0) as [_ | Hpos]; [reflexivity | lia].
Qed.

(** C9: on a host whose [inet_pton] accepts dotted quads only, [start] with
    an address that is not a dotted quad (and a port that passes the
    assertion) returns a negative number. *)
Theorem inet_start_rejects_bad_address (sys : Sys) (addr : string)
    (port : Z) (s : State) :
  inet_pton_conforms sys ->
  0 <= port ->
  is_dotted_quad addr = false ->
  exists r s', FcgiManagerINET_start sys addr port s = Some (r, s') /\ r < 0.
Proof.
  intros Hsys Hport Haddr.
  destruct (inet_start_not_converted sys addr port s Hport (Hsys addr Haddr))
    as (s' & _ & Hstart).
  exists (-1), s'. split; [exact Hstart | lia].
Qed.

Lemma inet_start_rejects_bad_address_witness :
  exists r s',
    FcgiManagerINET_start quiet_host "localhost" 9000 (holding 3)
    = Some (r, s') /\ r < 0.
Proof.
  apply (inet_start_rejects_bad_address quiet_host "localhost" 9000 (holding 3)).
  - exact quiet_host_inet_pton_conforms.
  - lia.
  - reflexivity.
Defined.

(** [closeSocket] does not forget the descriptor it closed: called again,
    it closes the same number again. *)
Lemma closeSocket_twice (s : State) :
  FcgiManager.fcgifd_ (self s) <> -1 ->
  (closeSocket ;;; closeSocket) s
  = Some (tt, {| self := self s;
                 trace := trace s
                            ++ [EvClose (FcgiManager.fcgifd_ (self s));
                                EvClose (FcgiManager.fcgifd_ (self s))] |}).
Proof.
  intros H. unfold bind at 1.
  rewrite (closeSocket_open s H).
  rewrite closeSocket_open by exact H.
  cbn [self trace]. rewrite <- app_assoc. reflexivity.
Qed.

(** A reconnect to an address that is accepted replaces the descriptor:
    every socket of that run is closed once. *)
Lemma reconnect_good_address_closes_once :
  match connect_reconnect_destroy quiet_host "127.0.0.1" 9000
                                  "127.0.0.1" 9001 [] with
  | Some s => closes_only_open [] (trace s) = true
              /\ close_count 3 (trace s) = socket_count 3 (trace s)
  | None => False
  end.
Proof. cbn. split; reflexivity. Qed.

(** C1, at the failing input: connect to 127.0.0.1:9000, call [start]
    again with an address that is not converted, destroy the object.  The
    one socket that was created, descriptor 3, is closed by the second
    [start] and closed again by the destructor. *)
Theorem reconnect_bad_address_closes_twice :
  exists s,
    connect_reconnect_destroy quiet_host "127.0.0.1" 9000 "localhost" 9000 []
    = Some s
    /\ trace s = [EvSocket AF_INET SOCK_STREAM 0 3;
                  EvConnect 3 (sockaddr_in [35; 40] [127; 0; 0; 1]) 16 0;
                  EvClose 3;
                  EvClose 3]
    /\ socket_count 3 (trace s) = 1%nat
    /\ close_count 3 (trace s) = 2%nat
    /\ closes_only_open [] (trace s) = false.
Proof.
  eexists. split; [reflexivity |].
  repeat split.
Qed.


(** * Further properties *)

(** ** Header fields *)

(** X1: whatever [int] is stored, negative ones included, the accessors
    return its residue modulo [2 ^ 16], a number in [[0, 65536)]: a header
    never reads back a negative id or length, and an id in [[-65536, 0)]
    reads back 65536 higher. *)
Theorem header_u16_any_int (h : FcgiHeader.t) (v : Z) :
  let r := FcgiHeader.request_id (FcgiHeader.set_request_id h v) in
  let c := FcgiHeader.content_length (FcgiHeader.set_content_length h v) in
  r = v mod 2 ^ 16 /\ c = v mod 2 ^ 16
  /\ 0 <= r < 2 ^ 16 /\ 0 <= c < 2 ^ 16
  /\ (forall ty cl pad,
        FcgiHeader.request_id (FcgiHeader.ctor ty cl v pad) = r)
  /\ (forall ty rid pad,
        FcgiHeader.content_length (FcgiHeader.ctor ty v rid pad) = c)
  /\ (- 2 ^ 16 <= v < 0 -> r = v + 2 ^ 16).
Proof.
  intros r c. subst r c.
  change (2 ^ 16) with 65536.
  pose proof (Z.mod_pos_bound v 65536 ltac:(lia)) as Hb.
  header_fields. rewrite !split_combine.
  repeat split; try lia.
  intros Hneg.
  symmetry. apply (Z.mod_unique v 65536 (-1)); lia.
Qed.

(** X2: the two setters touch their own two bytes only.  Each leaves the
    other field and the remaining four bytes as they were, they commute,
    and of two calls of one setter the last one wins. *)
Theorem header_setters_independent (h : FcgiHeader.t) (a b : Z) :
  FcgiHeader.content_length (FcgiHeader.set_request_id h a)
  = FcgiHeader.content_length h
  /\ FcgiHeader.request_id (FcgiHeader.set_content_length h a)
     = FcgiHeader.request_id h
  /\ FcgiHeader.set_request_id (FcgiHeader.set_content_length h a) b
     = FcgiHeader.set_content_length (FcgiHeader.set_request_id h b) a
  /\ FcgiHeader.set_request_id (FcgiHeader.set_request_id h a) b
     = FcgiHeader.set_request_id h b
  /\ FcgiHeader.set_content_length (FcgiHeader.set_content_length h a) b
     = FcgiHeader.set_content_length h b
  /\ (forall i, (i < 2 \/ 6 <= i)%nat ->
        nth i (FcgiHeader.bytes (FcgiHeader.set_request_id
                                   (FcgiHeader.set_content_length h a) b)) 0
        = nth i (FcgiHeader.bytes h) 0).
Proof.
  repeat split.
  intros i Hi.
  destruct i as [| [| [| [| [| [| [| [| i]]]]]]]]; try lia; reflexivity.
Qed.

(** X3: the header the constructor builds is eight bytes, each in
    [[0, 256)]; its type byte is the record type's number, between 1 and
    11 and different for different types; its padding byte is the padding
    argument modulo 256. *)
Theorem header_wire_form (ty : FcgiType) (cl rid pad : Z) :
  let w := FcgiHeader.bytes (FcgiHeader.ctor ty cl rid pad) in
  List.length w = 8%nat
  /\ Forall is_Byte w
  /\ nth 1 w 0 = FcgiType_val ty
  /\ 1 <= FcgiType_val ty <= 11
  /\ (forall ty', FcgiType_val ty' = FcgiType_val ty -> ty' = ty)
  /\ nth 6 w 0 = pad mod 256.
Proof.
  intros w. subst w.
  split; [reflexivity |].
  split.
  { unfold FcgiHeader.bytes, FcgiHeader.ctor.
    cbn [FcgiHeader.version FcgiHeader.type FcgiHeader.request_id1
         FcgiHeader.request_id0 FcgiHeader.content_length1
         FcgiHeader.content_length0 FcgiHeader.padding_length
         FcgiHeader.reserved].
    repeat constructor; apply to_Byte_range. }
  split; [destruct ty; reflexivity |].
  split; [destruct ty; cbn; lia |].
  split; [| reflexivity].
  intros ty' E. destruct ty, ty'; try reflexivity; discriminate E.
Qed.

(** ** The begin-request body *)

Ltac body_fields :=
  unfold FcgiRequestBeginBody.role, FcgiRequestBeginBody.keep_alive;
  cbn [FcgiRequestBeginBody.role1 FcgiRequestBeginBody.role0
       FcgiRequestBeginBody.flags FcgiRequestBeginBody.reserved
       FcgiRequestBeginBody.ctor FcgiRequestBeginBody.set_role
       FcgiRequestBeginBody.set_keep_alive].

(** X4: [role()] reads back what the constructor stored, modulo [2 ^ 16],
    and what [set_role] stored exactly; for each of the three roles the
    high byte is 0 and the low byte is the role's number. *)
Theorem begin_body_role_roundtrip (mem : FcgiRequestBeginBody.t)
    (r : Z) (k : bool) (fr : FcgiRole) :
  FcgiRequestBeginBody.role (FcgiRequestBeginBody.ctor mem r k) = r mod 2 ^ 16
  /\ FcgiRequestBeginBody.role (FcgiRequestBeginBody.set_role mem fr)
     = FcgiRole_val fr
  /\ FcgiRequestBeginBody.role1 (FcgiRequestBeginBody.set_role mem fr) = 0
  /\ FcgiRequestBeginBody.role0 (FcgiRequestBeginBody.set_role mem fr)
     = FcgiRole_val fr
  /\ FcgiRequestBeginBody.role
       (FcgiRequestBeginBody.ctor mem (FcgiRole_val fr) k) = FcgiRole_val fr.
Proof.
  split.
  { body_fields. apply split_combine. }
  destruct fr; repeat split.
Qed.

(** [flags & 1] is not zero exactly when bit 0 of [flags] is set. *)
Lemma land_1_testbit (f : Z) : negb (Z.land f 1 =? 0) = Z.testbit f 0.
Proof.
  change 1 with (Z.ones 1) at 1.
  rewrite Z.land_ones by lia.
  change (2 ^ 1) with 2.
  rewrite Z.bit0_odd, Zmod_odd.
  destruct (Z.odd f); reflexivity.
Qed.

(** X5: [keep_alive()] is bit 0 of the flags byte and nothing else; it
    reads back the flag given to the constructor or to [set_keep_alive];
    and [set_keep_alive] writes the whole byte, 1 or 0, so it clears the
    seven other flag bits whatever they were. *)
Theorem begin_body_keep_alive (b : FcgiRequestBeginBody.t) (r : Z) (k : bool) :
  FcgiRequestBeginBody.keep_alive b
  = Z.testbit (FcgiRequestBeginBody.flags b) 0
  /\ FcgiRequestBeginBody.keep_alive (FcgiRequestBeginBody.ctor b r k) = k
  /\ FcgiRequestBeginBody.keep_alive (FcgiRequestBeginBody.set_keep_alive b k)
     = k
  /\ FcgiRequestBeginBody.flags (FcgiRequestBeginBody.set_keep_alive b k)
     = (if k then 1 else 0)
  /\ (forall i, 0 < i ->
        Z.testbit (FcgiRequestBeginBody.flags
                     (FcgiRequestBeginBody.set_keep_alive b k)) i = false).
Proof.
  split; [apply land_1_testbit |].
  split; [destruct k; reflexivity |].
  split; [destruct k; reflexivity |].
  split; [destruct k; reflexivity |].
  intros i Hi. body_fields.
  destruct k; cbn.
  - destruct i; try lia; reflexivity.
  - apply Z.testbit_0_l.
Qed.

(** X6: each setter alone leaves the rest of the body as it was:
    [set_role] the flags byte (so [keep_alive()]) and the five reserved
    bytes, [set_keep_alive] the two role bytes (so [role()]) and the five
    reserved bytes; and the two commute. *)
Theorem begin_body_setters_independent (b : FcgiRequestBeginBody.t)
    (fr : FcgiRole) (k : bool) :
  FcgiRequestBeginBody.flags (FcgiRequestBeginBody.set_role b fr)
  = FcgiRequestBeginBody.flags b
  /\ FcgiRequestBeginBody.reserved (FcgiRequestBeginBody.set_role b fr)
     = FcgiRequestBeginBody.reserved b
  /\ FcgiRequestBeginBody.keep_alive (FcgiRequestBeginBody.set_role b fr)
     = FcgiRequestBeginBody.keep_alive b
  /\ FcgiRequestBeginBody.role1 (FcgiRequestBeginBody.set_keep_alive b k)
     = FcgiRequestBeginBody.role1 b
  /\ FcgiRequestBeginBody.role0 (FcgiRequestBeginBody.set_keep_alive b k)
     = FcgiRequestBeginBody.role0 b
  /\ FcgiRequestBeginBody.reserved (FcgiRequestBeginBody.set_keep_alive b k)
     = FcgiRequestBeginBody.reserved b
  /\ FcgiRequestBeginBody.role (FcgiRequestBeginBody.set_keep_alive b k)
     = FcgiRequestBeginBody.role b
  /\ skipn 2 (FcgiRequestBeginBody.bytes (FcgiRequestBeginBody.set_role b fr))
     = skipn 2 (FcgiRequestBeginBody.bytes b)
  /\ firstn 2 (FcgiRequestBeginBody.bytes
                 (FcgiRequestBeginBody.set_keep_alive b k))
     = firstn 2 (FcgiRequestBeginBody.bytes b)
  /\ skipn 3 (FcgiRequestBeginBody.bytes
                (FcgiRequestBeginBody.set_keep_alive b k))
     = skipn 3 (FcgiRequestBeginBody.bytes b)
  /\ FcgiRequestBeginBody.set_role (FcgiRequestBeginBody.set_keep_alive b k) fr
     = FcgiRequestBeginBody.set_keep_alive
         (FcgiRequestBeginBody.set_role b fr) k.
Proof.
  destruct b as [r1 r0 f [[[[x0 x1] x2] x3] x4]].
  repeat split.
Qed.

(** ** The params record *)

(** X7: [set_name_length] writes the four name bytes the constructor would
    write and leaves the four value bytes alone: a length in [[0, 2^31)]
    reads back, and the value length is the one stored before. *)
Theorem set_name_length_as_ctor (n n0 v : Z) :
  0 <= n < 2 ^ 31 ->
  0 <= v < 2 ^ 31 ->
  let p := FcgiParams.set_name_length (FcgiParams.ctor n0 v) n in
  p = FcgiParams.ctor n v
  /\ FcgiParams.spec_name_length p = n
  /\ FcgiParams.spec_value_length p = v.
Proof.
  intros Hn Hv p. subst p.
  split; [reflexivity |].
  unfold FcgiParams.spec_name_length, FcgiParams.spec_value_length,
    FcgiParams.set_name_length, FcgiParams.ctor.
  cbn [FcgiParams.name_length3 FcgiParams.name_length2 FcgiParams.name_length1
       FcgiParams.name_length0 FcgiParams.value_length3
       FcgiParams.value_length2 FcgiParams.value_length1
       FcgiParams.value_length0].
  split; apply decode_long_form; assumption.
Qed.

Lemma set_name_length_as_ctor_witness :
  FcgiParams.set_name_length (FcgiParams.ctor 5 70000) 300
  = FcgiParams.ctor 300 70000
  /\ FcgiParams.spec_name_length
       (FcgiParams.set_name_length (FcgiParams.ctor 5 70000) 300) = 300
  /\ FcgiParams.spec_value_length
       (FcgiParams.set_name_length (FcgiParams.ctor 5 70000) 300) = 70000.
Proof. apply (set_name_length_as_ctor 300 5 70000); lia. Defined.

(** Narrowing to [int] does not change the low 16 bits. *)
Lemma to_int_mod_65536 (x : Z) : to_int x mod 65536 = x mod 65536.
Proof.
  unfold to_int.
  pose proof (Z.div_mod (x + 2 ^ 31) (2 ^ 32) ltac:(lia)) as E.
  replace ((x + 2 ^ 31) mod 2 ^ 32 - 2 ^ 31)
    with (x + (- (65536 * ((x + 2 ^ 31) / 2 ^ 32))) * 65536) by lia.
  apply Z.mod_add. lia.
Qed.

(** What [sendParams] hands to [send]. *)
Lemma sendParams_spec (sys : Sys) (key value : list Byte) (request_id : Z)
    (s : State) :
  let fd := FcgiManager.fcgifd_ (self s) in
  let buf :=
    FcgiHeader.bytes
      (FcgiHeader.ctor kTypeParams (to_int (strlen key + strlen value))
                       request_id 0)
    ++ FcgiParams.bytes
         (FcgiParams.ctor (to_int (strlen key)) (to_int (strlen value)))
    ++ key ++ value in
  let r := sys_send sys (trace s) fd buf 0 in
  sendParams sys key value request_id s
  = Some (to_int r,
          {| self := self s; trace := trace s ++ [EvSend fd buf 0 r] |}).
Proof.
  intros fd buf r. unfold sendParams, FcgiHeader.ctor3. cbv zeta.
  rewrite doWrite_spec. cbv zeta.
  assert (L : Z.of_nat (List.length buf)
              = FcgiParams.sizeof + FcgiHeader.sizeof
                + strlen key + strlen value).
  { subst buf. unfold strlen.
    rewrite !length_app, !Nat2Z.inj_add.
    change (Z.of_nat (List.length (FcgiHeader.bytes _))) with 8.
    change (Z.of_nat (List.length (FcgiParams.bytes _))) with 8.
    change FcgiParams.sizeof with 8. change FcgiHeader.sizeof with 8. lia. }
  subst r fd buf. rewrite (firstn_sizeof _ _ L). reflexivity.
Qed.



Lemma FcgiHeader_of_bytes_bytes (h : FcgiHeader.t) :
  FcgiHeader_of_bytes (FcgiHeader.bytes h) = h.
Proof. destruct h; reflexivity. Qed.

Lemma firstn_header_app (h : FcgiHeader.t) (rest : list Byte) :
  firstn 8 (FcgiHeader.bytes h ++ rest) = FcgiHeader.bytes h.
Proof. reflexivity. Qed.

Lemma content_length_ctor (ty : FcgiType) (cl rid pad : Z) :
  FcgiHeader.content_length (FcgiHeader.ctor ty cl rid pad) = cl mod 65536.
Proof. header_fields. apply split_combine. Qed.

(** X9: the content length [sendParams] puts in the header counts the name
    and the value but not the 8-byte prefix it sends with them, and it is
    cut to 16 bits: it is [(name + value) mod 2^16], while
    [8 + name + value] bytes follow the header. *)
Theorem sendParams_content_length (sys : Sys) (key value : list Byte)
    (request_id : Z) (s : State) :
  exists buf r,
    sendParams sys key value request_id s
    = Some (to_int r,
            {| self := self s;
               trace := trace s
                          ++ [EvSend (FcgiManager.fcgifd_ (self s)) buf 0 r] |})
    /\ FcgiHeader.content_length (FcgiHeader_of_bytes (firstn 8 buf))
       = (strlen key + strlen value) mod 2 ^ 16
    /\ Z.of_nat (List.length (skipn 8 buf)) = 8 + strlen key + strlen value
    /\ (strlen key + strlen value < 2 ^ 16 ->
        Z.of_nat (List.length (skipn 8 buf))
        = FcgiHeader.content_length (FcgiHeader_of_bytes (firstn 8 buf)) + 8).
Proof.
  pose proof (sendParams_spec sys key value request_id s) as E.
  cbv zeta in E.
  eexists. eexists. split; [exact E |].
  assert (Hk : 0 <= strlen key) by (unfold strlen; lia).
  assert (Hv : 0 <= strlen value) by (unfold strlen; lia).
  assert (C : FcgiHeader.content_length
                (FcgiHeader_of_bytes
                   (firstn 8
                      (FcgiHeader.bytes
                         (FcgiHeader.ctor kTypeParams
                            (to_int (strlen key + strlen value)) request_id 0)
                       ++ FcgiParams.bytes
                            (FcgiParams.ctor (to_int (strlen key))
                                             (to_int (strlen value)))
                       ++ key ++ value)))
              = (strlen key + strlen value) mod 2 ^ 16).
  { rewrite firstn_header_app, FcgiHeader_of_bytes_bytes, content_length_ctor.
    apply to_int_mod_65536. }
  assert (L : Z.of_nat
                (List.length
                   (skipn 8
                      (FcgiHeader.bytes
                         (FcgiHeader.ctor kTypeParams
                            (to_int (strlen key + strlen value)) request_id 0)
                       ++ FcgiParams.bytes
                            (FcgiParams.ctor (to_int (strlen key))
                                             (to_int (strlen value)))
                       ++ key ++ value)))
              = 8 + strlen key + strlen value).
  { change (skipn 8 (FcgiHeader.bytes ?h ++ ?rest)) with rest.
    unfold strlen. rewrite !length_app, !Nat2Z.inj_add.
    change (Z.of_nat (List.length (FcgiParams.bytes _))) with 8. lia. }
  split; [exact C |]. split; [exact L |].
  intros Hsmall. rewrite C, L.
  rewrite Z.mod_small by lia. lia.
Qed.

Lemma sendParams_content_length_witness :
  strlen [65] + strlen [66] < 2 ^ 16
  /\ exists buf r,
       sendParams quiet_host [65] [66] 1 (holding 3)
       = Some (to_int r,
               {| self := self (holding 3);
                  trace := trace (holding 3) ++ [EvSend 3 buf 0 r] |})
       /\ FcgiHeader.content_length (FcgiHeader_of_bytes (firstn 8 buf))
          = (strlen [65] + strlen [66]) mod 2 ^ 16
       /\ Z.of_nat (List.length (skipn 8 buf)) = 8 + strlen [65] + strlen [66]
       /\ (strlen [65] + strlen [66] < 2 ^ 16 ->
           Z.of_nat (List.length (skipn 8 buf))
           = FcgiHeader.content_length (FcgiHeader_of_bytes (firstn 8 buf))
             + 8).
Proof.
  split; [reflexivity |].
  exact (sendParams_content_length quiet_host [65] [66] 1 (holding 3)).
Defined.

(** A content length that is a multiple of [2^16] leaves two zero bytes. *)
Lemma ctor_content_length_zero (ty : FcgiType) (cl rid pad : Z) :
  cl mod 65536 = 0 ->
  FcgiHeader.ctor ty cl rid pad = FcgiHeader.ctor ty 0 rid pad.
Proof.
  intros H. unfold FcgiHeader.ctor.
  rewrite !to_Byte_land_255.
  change 65536 with (256 * 256) in H.
  rewrite (Z.rem_mul_r cl 256 256) in H by lia.
  pose proof (Z.mod_pos_bound cl 256 ltac:(lia)).
  pose proof (Z.mod_pos_bound (cl / 256) 256 ltac:(lia)).
  rewrite (Z.shiftr_div_pow2 cl 8) by lia. change (2 ^ 8) with 256.
  replace (cl mod 256) with 0 by lia.
  replace ((cl / 256) mod 256) with 0 by lia.
  reflexivity.
Qed.

(** X10: the header [sendParams] sends is byte for byte the terminator
    that [endParams] sends exactly when the name and value lengths add up
    to a multiple of [2^16], as they do for an empty name with an empty
    value. *)
Theorem sendParams_header_is_terminator (sys : Sys) (key value : list Byte)
    (request_id : Z) (s s0 : State) :
  exists bufP rP bufE rE,
    sendParams sys key value request_id s
    = Some (to_int rP,
            {| self := self s;
               trace := trace s
                          ++ [EvSend (FcgiManager.fcgifd_ (self s)) bufP 0 rP] |})
    /\ endParams sys request_id s0
       = Some (to_int rE,
               {| self := self s0;
                  trace := trace s0
                             ++ [EvSend (FcgiManager.fcgifd_ (self s0))
                                        bufE 0 rE] |})
    /\ (firstn 8 bufP = bufE <-> (strlen key + strlen value) mod 2 ^ 16 = 0)
    /\ (key = [] -> value = [] -> firstn 8 bufP = bufE).
Proof.
  pose proof (sendParams_spec sys key value request_id s) as E.
  cbv zeta in E.
  eexists. eexists.
  exists (FcgiHeader.bytes (FcgiHeader.ctor kTypeParams 0 request_id 0)).
  eexists.
  split; [exact E |].
  split.
  { unfold endParams, FcgiHeader.ctor3. cbv zeta. rewrite doWrite_spec.
    cbv zeta.
    rewrite (firstn_sizeof _ _ (FcgiHeader_bytes_length _)). reflexivity. }
  rewrite firstn_header_app.
  assert (I : FcgiHeader.bytes
                (FcgiHeader.ctor kTypeParams
                   (to_int (strlen key + strlen value)) request_id 0)
              = FcgiHeader.bytes (FcgiHeader.ctor kTypeParams 0 request_id 0)
              <-> (strlen key + strlen value) mod 2 ^ 16 = 0).
  { change (2 ^ 16) with 65536. split.
    - intros H.
      apply (f_equal (fun l => FcgiHeader.content_length
                                 (FcgiHeader_of_bytes l))) in H.
      rewrite !FcgiHeader_of_bytes_bytes, !content_length_ctor in H.
      rewrite to_int_mod_65536 in H. exact H.
    - intros H. f_equal. apply ctor_content_length_zero.
      rewrite to_int_mod_65536. exact H. }
  split; [exact I |].
  intros -> ->. reflexivity.
Qed.

(** ** Descriptors across calls *)

Lemma live_app (tr1 tr2 : Trace) :
  forall open, live open (tr1 ++ tr2) = live (live open tr1) tr2.
Proof.
  induction tr1 as [| e tr1 IH]; intros open; [reflexivity |].
  destruct e; cbn [app live]; apply IH.
Qed.

Lemma closes_only_open_app (tr1 tr2 : Trace) :
  forall open,
    closes_only_open open (tr1 ++ tr2)
    = closes_only_open open tr1 && closes_only_open (live open tr1) tr2.
Proof.
  induction tr1 as [| e tr1 IH]; intros open; [reflexivity |].
  destruct e; cbn [app live closes_only_open]; rewrite IH;
    try reflexivity.
  now rewrite andb_assoc.
Qed.

(** A [send] opens and closes nothing. *)
Lemma owns_open_after_send (s : State) (fd : Z) (buf : list Byte)
    (flags r : Z) :
  owns_open s ->
  owns_open {| self := self s; trace := trace s ++ [EvSend fd buf flags r] |}.
Proof.
  intros [Hc Hl]. unfold owns_open. cbn [self trace].
  rewrite closes_only_open_app, live_app, Hc. cbn [live closes_only_open].
  split; [reflexivity | exact Hl].
Qed.

(** X11: a whole request, [startParams] then [sendParams] then
    [endParams], is three [send]s in that order on the object's
    descriptor, of 16, 16 + name + value and 8 bytes, with type bytes 1, 4
    and 4 and the same two request id bytes.  Nothing is opened or closed,
    so an object that owned the open descriptor still does; and the result
    is that of the last [send] alone. *)
Theorem request_sequence (sys : Sys) (msg0 : FcgiRequestBegin.t)
    (role : FcgiRole) (keep_alive : bool) (request_id : Z)
    (key value : list Byte) (s : State) :
  exists b1 b2 b3 r1 r2 r3 s',
    (startParams sys msg0 role keep_alive request_id ;;;
     sendParams sys key value request_id ;;;
     endParams sys request_id) s = Some (to_int r3, s')
    /\ self s' = self s
    /\ trace s' = trace s ++ [EvSend (FcgiManager.fcgifd_ (self s)) b1 0 r1;
                              EvSend (FcgiManager.fcgifd_ (self s)) b2 0 r2;
                              EvSend (FcgiManager.fcgifd_ (self s)) b3 0 r3]
    /\ Z.of_nat (List.length b1) = 16
    /\ Z.of_nat (List.length b2) = 16 + strlen key + strlen value
    /\ Z.of_nat (List.length b3) = 8
    /\ map (fun b => nth 1 b 0) [b1; b2; b3] = [1; 4; 4]
    /\ (forall b, In b [b2; b3] ->
          nth 2 b 0 = nth 2 b1 0 /\ nth 3 b 0 = nth 3 b1 0)
    /\ (owns_open s -> owns_open s').
Proof.
  do 7 eexists.
  split.
  { unfold bind at 1.
    unfold startParams. cbv zeta. rewrite doWrite_spec. cbv zeta.
    rewrite (firstn_sizeof _ _ (FcgiRequestBegin_bytes_length _)).
    unfold bind at 1.
    rewrite sendParams_spec. cbv zeta. cbn [self trace].
    unfold endParams. cbv zeta. rewrite doWrite_spec. cbv zeta.
    cbn [self trace].
    rewrite (firstn_sizeof _ _ (FcgiHeader_bytes_length _)).
    reflexivity. }
  cbn [self trace].
  split; [reflexivity |].
  split; [rewrite <- !app_assoc; reflexivity |].
  split; [apply FcgiRequestBegin_bytes_length |].
  split.
  { unfold strlen. rewrite !length_app, !Nat2Z.inj_add.
    change (Z.of_nat (List.length (FcgiHeader.bytes _))) with 8.
    change (Z.of_nat (List.length (FcgiParams.bytes _))) with 8. lia. }
  split; [reflexivity |].
  split; [reflexivity |].
  split.
  { intros b [<- | [<- | []]]; split; reflexivity. }
  intros Hown.
  apply (owns_open_after_send _ _ _ _ _
           (owns_open_after_send _ _ _ _ _
              (owns_open_after_send s _ _ _ _ Hown))).
Qed.

(** ** Connecting *)

(** X12: on a host whose [inet_pton] accepts dotted quads only, the
    constructor given any other address makes no system call and leaves
    the object without a socket ([fcgifd_] is -1); it has no result to
    tell.  A write on that object is not held back: [endParams] calls
    [send] on descriptor -1.  Destroying the object closes nothing. *)
Theorem ctor_bad_address_then_write (sys : Sys) (addr : string)
    (port request_id : Z) (tr : Trace) :
  inet_pton_conforms sys ->
  0 <= port ->
  is_dotted_quad addr = false ->
  exists s,
    FcgiManagerINET_ctor sys addr port tr = Some s
    /\ self s = FcgiManager.init
    /\ trace s = tr
    /\ (exists buf r,
          endParams sys request_id s
          = Some (to_int r,
                  {| self := self s;
                     trace := tr ++ [EvSend (-1) buf 0 r] |}))
    /\ dtor s = Some (tt, s).
Proof.
  intros Hsys Hport Haddr.
  set (s0 := {| self := FcgiManager.init; trace := tr |}).
  destruct (inet_start_not_converted sys addr port s0 Hport (Hsys addr Haddr))
    as (s' & Hclose & Hstart).
  rewrite (closeSocket_unopened s0 eq_refl) in Hclose.
  injection Hclose as <-.
  exists s0. unfold FcgiManagerINET_ctor. fold s0. rewrite Hstart.
  split; [reflexivity |]. split; [reflexivity |]. split; [reflexivity |].
  split.
  - eexists. eexists. unfold endParams. cbv zeta. rewrite doWrite_spec.
    cbv zeta.
    rewrite (firstn_sizeof _ _ (FcgiHeader_bytes_length _)). reflexivity.
  - apply (closeSocket_unopened s0 eq_refl).
Qed.

Lemma ctor_bad_address_then_write_witness :
  exists s,
    FcgiManagerINET_ctor quiet_host "fcgi.local" 9000 [] = Some s
    /\ self s = FcgiManager.init
    /\ trace s = []
    /\ (exists buf r,
          endParams quiet_host 1 s
          = Some (to_int r,
                  {| self := self s; trace := [] ++ [EvSend (-1) buf 0 r] |}))
    /\ dtor s = Some (tt, s).
Proof.
  apply (ctor_bad_address_then_write quiet_host "fcgi.local" 9000 1 []).
  - exact quiet_host_inet_pton_conforms.
  - lia.
  - reflexivity.
Defined.

(** X13: with a port that passes the assertion and an address that
    [inet_pton] converts, [start] closes the socket it holds, if any, then
    calls [socket] and [connect] once each.  It does not look at what
    [socket] returned: that number, -1 included, is stored in the object
    and handed to [connect], and the result of [start] is that of
    [connect]. *)
Theorem inet_start_converted (sys : Sys) (addr : string) (port : Z)
    (s : State) :
  0 <= port ->
  0 < fst (sys_inet_pton sys AF_INET addr) ->
  exists s1 fd r s',
    closeSocket s = Some (tt, s1)
    /\ fd = sys_socket sys (trace s1) AF_INET SOCK_STREAM 0
    /\ FcgiManagerINET_start sys addr port s = Some (r, s')
    /\ FcgiManager.fcgifd_ (self s') = fd
    /\ trace s'
       = trace s1
           ++ [EvSocket AF_INET SOCK_STREAM 0 fd;
               EvConnect fd (sockaddr_in (htons port)
                                         (snd (sys_inet_pton sys AF_INET addr)))
                         sizeof_sockaddr_in r]
    /\ r = sys_connect sys (trace s1 ++ [EvSocket AF_INET SOCK_STREAM 0 fd]) fd
             (sockaddr_in (htons port) (snd (sys_inet_pton sys AF_INET addr)))
             sizeof_sockaddr_in.
Proof.
  intros Hport Hpton.
  destruct (closeSocket_total s) as (s1 & Hclose & _).
  unfold FcgiManagerINET_start, bind, assert.
  destruct (Z.leb_spec 0 port) as [_ | Hneg]; [| lia].
  rewrite Hclose.
  destruct (sys_inet_pton sys AF_INET addr) as [c sin_addr].
  cbn [fst snd] in *.
  destruct (Z.leb_spec c 0) as [Hle | _]; [lia |].
  exists s1. eexists. eexists. eexists.
  split; [reflexivity |].
  split; [reflexivity |].
  unfold syscall, set_fcgifd. cbn [self trace FcgiManager.fcgifd_].
  split; [reflexivity |].
  split; [reflexivity |].
  split; [rewrite <- app_assoc; reflexivity | reflexivity].
Qed.

Lemma inet_start_converted_witness :
  exists s1 fd r s',
    closeSocket (holding 3) = Some (tt, s1)
    /\ fd = sys_socket quiet_host (trace s1) AF_INET SOCK_STREAM 0
    /\ FcgiManagerINET_start quiet_host "10.0.0.7" 9000 (holding 3)
       = Some (r, s')
    /\ FcgiManager.fcgifd_ (self s') = fd
    /\ trace s'
       = trace s1
           ++ [EvSocket AF_INET SOCK_STREAM 0 fd;
               EvConnect fd
                 (sockaddr_in (htons 9000)
                    (snd (sys_inet_pton quiet_host AF_INET "10.0.0.7")))
                 sizeof_sockaddr_in r]
    /\ r = sys_connect quiet_host
             (trace s1 ++ [EvSocket AF_INET SOCK_STREAM 0 fd]) fd
             (sockaddr_in (htons 9000)
                (snd (sys_inet_pton quiet_host AF_INET "10.0.0.7")))
             sizeof_sockaddr_in.
Proof.
  apply (inet_start_converted quiet_host "10.0.0.7" 9000 (holding 3)).
  - lia.
  - vm_compute. reflexivity.
Defined.

Lemma htons_mod (port : Z) : htons (port mod 65536) = htons port.
Proof.
  unfold htons, to_Byte.
  rewrite !Z.shiftr_div_pow2 by lia. change (2 ^ 8) with 256.
  change 65536 with (256 * 256).
  rewrite (Z.rem_mul_r port 256 256) by lia.
  set (m := port mod 256). set (q := (port / 256) mod 256).
  pose proof (Z.mod_pos_bound port 256 ltac:(lia)) as Hm. fold m in Hm.
  pose proof (Z.mod_pos_bound (port / 256) 256 ltac:(lia)) as Hq. fold q in Hq.
  rewrite <- (Z.div_unique (m + 256 * q) 256 q m) by lia.
  rewrite <- (Z.mod_unique (m + 256 * q) 256 q m) by lia.
  rewrite (Z.mod_small q 256) by lia.
  reflexivity.
Qed.

(** X14: the port is not range checked above: [htons] keeps its low 16
    bits, so [start] with a port of 65536 or more does exactly what it
    does with that port modulo 65536. *)
Theorem inet_start_port_wraps (sys : Sys) (addr : string) (port : Z)
    (s : State) :
  0 <= port ->
  FcgiManagerINET_start sys addr port s
  = FcgiManagerINET_start sys addr (port mod 65536) s.
Proof.
  intros Hport.
  pose proof (Z.mod_pos_bound port 65536 ltac:(lia)) as Hb.
  unfold FcgiManagerINET_start.
  rewrite htons_mod.
  destruct (Z.leb_spec 0 port) as [_ | Hneg]; [| lia].
  destruct (Z.leb_spec 0 (port mod 65536)) as [_ | Hneg]; [| lia].
  reflexivity.
Qed.

Lemma inet_start_port_wraps_witness :
  FcgiManagerINET_start quiet_host "10.0.0.7" 74536 (holding 3)
  = FcgiManagerINET_start quiet_host "10.0.0.7" (74536 mod 65536) (holding 3).
Proof.
  apply (inet_start_port_wraps quiet_host "10.0.0.7" 74536 (holding 3)). lia.
Defined.

(** ** Who owns what is open *)

(** Closing the socket of an object that owns it releases it: no
    descriptor is open afterwards, and the close was of an open one. *)
Lemma closeSocket_releases (s : State) :
  owns_open s ->
  exists s1,
    closeSocket s = Some (tt, s1)
    /\ self s1 = self s
    /\ closes_only_open [] (trace s1) = true
    /\ live [] (trace s1) = [].
Proof.
  intros [Hc Hl].
  destruct (Z.eqb_spec (FcgiManager.fcgifd_ (self s)) (-1)) as [E | N].
  - exists s. rewrite (closeSocket_unopened s E). auto.
  - eexists. rewrite (closeSocket_open s N).
    split; [reflexivity |]. split; [reflexivity |].
    cbn [trace].
    rewrite closes_only_open_app, live_app, Hc, Hl.
    cbn [closes_only_open live existsb filter andb].
    rewrite Z.eqb_refl. split; reflexivity.
Qed.

(** A fresh socket, connected or not, stored in an object while nothing
    else is open: the object owns it. *)
Lemma owns_open_new_socket (tr : Trace) (domain ty protocol fd : Z)
    (addr : sockaddr) (len r : Z) :
  closes_only_open [] tr = true ->
  live [] tr = [] ->
  fd = -1 \/ 0 <= fd ->
  owns_open
    {| self := {| FcgiManager.fcgifd_ := fd |};
       trace := (tr ++ [EvSocket domain ty protocol fd])
                  ++ [EvConnect fd addr len r] |}.
Proof.
  intros Hc Hl Hfd. unfold owns_open. cbn [self trace FcgiManager.fcgifd_].
  rewrite <- app_assoc. cbn [app].
  rewrite closes_only_open_app, live_app, Hc, Hl.
  cbn [closes_only_open live andb].
  split; [reflexivity |].
  destruct Hfd as [-> | Hpos]; [reflexivity |].
  destruct (Z.leb_spec 0 fd) as [_ | Hneg]; [| lia].
  destruct (Z.eqb_spec fd (-1)) as [E | _]; [lia | reflexivity].
Qed.

(** X15: [FcgiManagerUnix::start] keeps the object the owner of what is
    open.  If the path fits [sun_path] and [socket] returns -1 or a
    descriptor, then from an object that owns the one open descriptor (or
    holds none) [start] returns, never closes a descriptor that is not
    open, and ends with the object owning the one descriptor open. *)
Theorem unix_start_keeps_ownership (sys : Sys) (path : list Byte)
    (padding : Z) (s : State) :
  socket_conforms sys ->
  strlen path < sizeof_sun_path ->
  owns_open s ->
  exists r s',
    FcgiManagerUnix_start sys path padding s = Some (r, s') /\ owns_open s'.
Proof.
  intros Hsock Hpath Hown.
  destruct (closeSocket_releases s Hown) as (s1 & Hclose & _ & Hc & Hl).
  unfold FcgiManagerUnix_start, bind, assert.
  rewrite Hclose.
  destruct (Z.ltb_spec (strlen path) sizeof_sun_path) as [_ | Hbig]; [| lia].
  unfold syscall, set_fcgifd. cbn [self trace].
  eexists. eexists. split; [reflexivity |].
  apply owns_open_new_socket; [exact Hc | exact Hl | apply Hsock].
Qed.

Lemma quiet_host_socket_conforms : socket_conforms quiet_host.
Proof. intros tr d t p. right. cbn. lia. Qed.

Lemma owns_open_holding_nothing : owns_open (holding (-1)).
Proof. split; reflexivity. Qed.

Lemma unix_start_keeps_ownership_witness :
  exists r s',
    FcgiManagerUnix_start quiet_host (bytes_of_string "/run/php.sock") 0
                          (holding (-1)) = Some (r, s')
    /\ owns_open s'.
Proof.
  apply (unix_start_keeps_ownership quiet_host
           (bytes_of_string "/run/php.sock") 0 (holding (-1))).
  - exact quiet_host_socket_conforms.
  - reflexivity.
  - exact owns_open_holding_nothing.
Defined.

(** X16: [FcgiManagerINET::start] keeps the object the owner of what is
    open when the address is converted, or when the object held no socket.
    (What is left out is the rejected address on an object that holds a
    socket.) *)
Theorem inet_start_keeps_ownership (sys : Sys) (addr : string) (port : Z)
    (s : State) :
  socket_conforms sys ->
  0 <= port ->
  0 < fst (sys_inet_pton sys AF_INET addr)
  \/ FcgiManager.fcgifd_ (self s) = -1 ->
  owns_open s ->
  exists r s',
    FcgiManagerINET_start sys addr port s = Some (r, s') /\ owns_open s'.
Proof.
  intros Hsock Hport Hcase Hown.
  destruct (closeSocket_releases s Hown) as (s1 & Hclose & Hself & Hc & Hl).
  unfold FcgiManagerINET_start, bind, assert.
  destruct (Z.leb_spec 0 port) as [_ | Hneg]; [| lia].
  rewrite Hclose.
  destruct (sys_inet_pton sys AF_INET addr) as [c sin_addr].
  cbn [fst] in Hcase.
  destruct (Z.leb_spec c 0) as [Hle | Hpos].
  - destruct Hcase as [Hc0 | Hnone]; [lia |].
    exists (-1), s1. split; [reflexivity |].
    rewrite (closeSocket_unopened s Hnone) in Hclose.
    injection Hclose as <-. exact Hown.
  - unfold syscall, set_fcgifd. cbn [self trace].
    eexists. eexists. split; [reflexivity |].
    apply owns_open_new_socket; [exact Hc | exact Hl | apply Hsock].
Qed.

Lemma inet_start_keeps_ownership_witness :
  exists r s',
    FcgiManagerINET_start quiet_host "10.0.0.7" 9000 (holding (-1))
    = Some (r, s')
    /\ owns_open s'.
Proof.
  apply (inet_start_keeps_ownership quiet_host "10.0.0.7" 9000 (holding (-1))).
  - exact quiet_host_socket_conforms.
  - lia.
  - right. reflexivity.
  - exact owns_open_holding_nothing.
Defined.

(** X17: constructing a TCP transport and destroying it, with nothing in
    between, is clean whatever the address and whatever [connect] says: the
    constructor returns if the port is not negative, and after the
    destructor no descriptor is open and no [close] was of a descriptor
    that was not open. *)
Theorem inet_lifetime_clean (sys : Sys) (addr : string) (port : Z)
    (tr : Trace) :
  socket_conforms sys ->
  0 <= port ->
  closes_only_open [] tr = true ->
  live [] tr = [] ->
  exists s s',
    FcgiManagerINET_ctor sys addr port tr = Some s
    /\ dtor s = Some (tt, s')
    /\ closes_only_open [] (trace s') = true
    /\ live [] (trace s') = [].
Proof.
  intros Hsock Hport Hc Hl.
  set (s0 := {| self := FcgiManager.init; trace := tr |}).
  assert (Hown : owns_open s0) by (split; [exact Hc | exact Hl]).
  assert (Hstart : exists r s',
             FcgiManagerINET_start sys addr port s0 = Some (r, s')
             /\ owns_open s').
  { destruct (closeSocket_releases s0 Hown) as (s1 & Hclose & _ & Hc1 & Hl1).
    unfold FcgiManagerINET_start, bind, assert.
    destruct (Z.leb_spec 0 port) as [_ | Hneg]; [| lia].
    rewrite Hclose.
    destruct (sys_inet_pton sys AF_INET addr) as [c sin_addr].
    destruct (Z.leb_spec c 0) as [Hle | Hpos].
    - exists (-1), s1. split; [reflexivity |].
      rewrite (closeSocket_unopened s0 eq_refl) in Hclose.
      injection Hclose as <-. exact Hown.
    - unfold syscall, set_fcgifd. cbn [self trace].
      eexists. eexists. split; [reflexivity |].
      apply owns_open_new_socket; [exact Hc1 | exact Hl1 | apply Hsock]. }
  destruct Hstart as (r & s & Hstart & Hown').
  destruct (closeSocket_releases s Hown') as (s' & Hclose' & _ & Hc' & Hl').
  exists s, s'. unfold FcgiManagerINET_ctor. fold s0. rewrite Hstart.
  unfold dtor. auto.
Qed.

Lemma inet_lifetime_clean_witness :
  exists s s',
    FcgiManagerINET_ctor quiet_host "10.0.0.7" 9000 [] = Some s
    /\ dtor s = Some (tt, s')
    /\ closes_only_open [] (trace s') = true
    /\ live [] (trace s') = [].
Proof.
  apply (inet_lifetime_clean quiet_host "10.0.0.7" 9000 []).
  - exact quiet_host_socket_conforms.
  - lia.
  - reflexivity.
  - reflexivity.
Defined.

(** X18: a Unix transport may be reconnected any number of times.  With
    paths that fit [sun_path] and a [socket] that returns -1 or a
    descriptor, constructing it, calling [start] again for each path of a
    list and destroying it closes every socket it created exactly when it
    was open and leaves none open. *)
Theorem unix_lifetime_clean (sys : Sys) (path : list Byte)
    (paths : list (list Byte)) :
  socket_conforms sys ->
  Forall (fun p => strlen p < sizeof_sun_path) (path :: paths) ->
  exists s1 s2 s3,
    FcgiManagerUnix_ctor sys path [] = Some s1
    /\ unix_restarts sys paths s1 = Some (tt, s2)
    /\ dtor s2 = Some (tt, s3)
    /\ closes_only_open [] (trace s3) = true
    /\ live [] (trace s3) = [].
Proof.
  intros Hsock Hfit.
  inversion Hfit as [| p ps Hpath Hpaths]; subst p ps.
  assert (Step : forall q s, strlen q < sizeof_sun_path -> owns_open s ->
            exists r s', FcgiManagerUnix_start sys q 0 s = Some (r, s')
                         /\ owns_open s').
  { intros q s Hq Hown.
    destruct (closeSocket_releases s Hown) as (s1 & Hclose & _ & Hc & Hl).
    unfold FcgiManagerUnix_start, bind, assert.
    rewrite Hclose.
    destruct (Z.ltb_spec (strlen q) sizeof_sun_path) as [_ | Hbig]; [| lia].
    unfold syscall, set_fcgifd. cbn [self trace].
    eexists. eexists. split; [reflexivity |].
    apply owns_open_new_socket; [exact Hc | exact Hl | apply Hsock]. }
  assert (Steps : forall s, owns_open s ->
            exists s', unix_restarts sys paths s = Some (tt, s')
                       /\ owns_open s').
  { clear Hfit. induction Hpaths as [| q qs Hq _ IH]; intros s Hown.
    - exists s. split; [reflexivity | exact Hown].
    - destruct (Step q s Hq Hown) as (r & s' & Hs & Hown').
      destruct (IH s' Hown') as (s'' & Hrest & Hown'').
      exists s''. cbn [unix_restarts]. unfold bind at 1.
      rewrite Hs. split; [exact Hrest | exact Hown'']. }
  destruct (Step path {| self := FcgiManager.init; trace := [] |} Hpath
                 ltac:(split; reflexivity)) as (r & s1 & Hs1 & Hown1).
  destruct (Steps s1 Hown1) as (s2 & Hs2 & Hown2).
  destruct (closeSocket_releases s2 Hown2) as (s3 & Hs3 & _ & Hc & Hl).
  exists s1, s2, s3.
  unfold FcgiManagerUnix_ctor, exec. rewrite Hs1.
  unfold dtor. auto.
Qed.

Lemma unix_lifetime_clean_witness :
  exists s1 s2 s3,
    FcgiManagerUnix_ctor quiet_host (bytes_of_string "/run/a.sock") []
    = Some s1
    /\ unix_restarts quiet_host
         [bytes_of_string "/run/b.sock"; bytes_of_string "/run/c.sock"] s1
       = Some (tt, s2)
    /\ dtor s2 = Some (tt, s3)
    /\ closes_only_open [] (trace s3) = true
    /\ live [] (trace s3) = [].
Proof.
  apply (unix_lifetime_clean quiet_host (bytes_of_string "/run/a.sock")
           [bytes_of_string "/run/b.sock"; bytes_of_string "/run/c.sock"]).
  - exact quiet_host_socket_conforms.
  - repeat constructor.
Defined.

(** ** Reading a header *)

Lemma FcgiHeader_bytes_of_bytes (l : list Byte) :
  List.length l = 8%nat -> FcgiHeader.bytes (FcgiHeader_of_bytes l) = l.
Proof.
  intros H.
  do 8 (destruct l as [| ? l]; [discriminate H |]).
  destruct l; [reflexivity | discriminate H].
Qed.

(** X19: a header survives the wire.  If [recv] stores the eight bytes of
    a header that the constructor built, [readHeader] returns that header,
    whatever the local held before: the type byte is the record type's
    number, [request_id()] and [content_length()] are the arguments modulo
    [2^16].  It is one [recv] of 8 bytes with flags 0 on the object's
    descriptor, and the object is left as it was. *)
Theorem readHeader_roundtrip
    (sys_recv : Trace -> list RecvCall -> Z -> Z -> Z -> Z * list Byte)
    (header0 : FcgiHeader.t) (c : Conn)
    (ty : FcgiType) (cl rid pad r : Z) :
  sys_recv (trace (st c)) (recvs c) (FcgiManager.fcgifd_ (self (st c))) 8 0
  = (r, FcgiHeader.bytes (FcgiHeader.ctor ty cl rid pad)) ->
  let '(h, c') := readHeader sys_recv header0 c in
  h = FcgiHeader.ctor ty cl rid pad
  /\ FcgiHeader.type h = FcgiType_val ty
  /\ FcgiHeader.request_id h = rid mod 2 ^ 16
  /\ FcgiHeader.content_length h = cl mod 2 ^ 16
  /\ st c' = st c
  /\ recvs c'
     = recvs c
         ++ [{| rc_fd := FcgiManager.fcgifd_ (self (st c)); rc_length := 8;
                rc_flags := 0; rc_ret := r;
                rc_data := FcgiHeader.bytes (FcgiHeader.ctor ty cl rid pad) |}].
Proof.
  intros Hrecv.
  unfold readHeader, doRead.
  change FcgiHeader.sizeof with 8. rewrite Hrecv.
  set (w := FcgiHeader.ctor ty cl rid pad).
  change (firstn (Z.to_nat 8) (FcgiHeader.bytes w)) with (FcgiHeader.bytes w).
  change (skipn (List.length (FcgiHeader.bytes w)) (FcgiHeader.bytes header0))
    with (@nil Byte).
  rewrite app_nil_r, FcgiHeader_of_bytes_bytes.
  subst w.
  split; [reflexivity |].
  split; [destruct ty; reflexivity |].
  split; [header_fields; apply split_combine |].
  split; [apply content_length_ctor |].
  split; reflexivity.
Qed.

Lemma readHeader_roundtrip_witness :
  let '(h, c') :=
    readHeader end_request_peer (FcgiHeader.mk 9 9 9 9 9 9 9 9) (fresh_conn 3)
  in
  h = FcgiHeader.ctor kTypeEnd 8 1 0
  /\ FcgiHeader.type h = FcgiType_val kTypeEnd
  /\ FcgiHeader.request_id h = 1 mod 2 ^ 16
  /\ FcgiHeader.content_length h = 8 mod 2 ^ 16
  /\ st c' = st (fresh_conn 3)
  /\ recvs c'
     = recvs (fresh_conn 3)
         ++ [{| rc_fd := FcgiManager.fcgifd_ (self (st (fresh_conn 3)));
                rc_length := 8; rc_flags := 0; rc_ret := 8;
                rc_data := FcgiHeader.bytes (FcgiHeader.ctor kTypeEnd 8 1 0) |}].
Proof.
  apply (readHeader_roundtrip end_request_peer (FcgiHeader.mk 9 9 9 9 9 9 9 9)
           (fresh_conn 3) kTypeEnd 8 1 0 8).
  reflexivity.
Defined.

(** X20: [readHeader] drops the result of [recv].  With a [recv] that
    keeps to its contract, the header returned is the bytes received laid
    over the uninitialised local: after a short read the fields not
    received are what the storage held, and after an error or an end of
    stream the whole header is, with nothing to tell the caller so. *)
Theorem readHeader_short_or_failed
    (sys_recv : Trace -> list RecvCall -> Z -> Z -> Z -> Z * list Byte)
    (header0 : FcgiHeader.t) (c : Conn) :
  recv_conforms sys_recv ->
  let '(r, data) :=
    sys_recv (trace (st c)) (recvs c) (FcgiManager.fcgifd_ (self (st c))) 8 0
  in
  let h := fst (readHeader sys_recv header0 c) in
  FcgiHeader.bytes h
  = data ++ skipn (List.length data) (FcgiHeader.bytes header0)
  /\ (r <= 0 -> h = header0).
Proof.
  intros Hrecv.
  specialize (Hrecv (trace (st c)) (recvs c)
                    (FcgiManager.fcgifd_ (self (st c))) 8 0).
  unfold readHeader, doRead. change FcgiHeader.sizeof with 8.
  destruct (sys_recv (trace (st c)) (recvs c)
                     (FcgiManager.fcgifd_ (self (st c))) 8 0) as [r data].
  cbn [fst].
  assert (Hlen : (List.length data <= 8)%nat) by (destruct Hrecv; [| lia];
    destruct H as [_ ->]; cbn; lia).
  assert (Hall : firstn (Z.to_nat 8) data = data)
    by (apply firstn_all2; change (Z.to_nat 8) with 8%nat; exact Hlen).
  rewrite Hall.
  split.
  - apply FcgiHeader_bytes_of_bytes.
    rewrite length_app, length_skipn.
    change (List.length (FcgiHeader.bytes header0)) with 8%nat. lia.
  - intros Hr.
    assert (data = []) as ->.
    { destruct Hrecv as [[_ E] | [Hr' Hl]]; [exact E |].
      destruct data; [reflexivity | cbn in Hl; lia]. }
    cbn [List.length skipn app]. apply FcgiHeader_of_bytes_bytes.
Qed.

Lemma broken_peer_conforms : recv_conforms broken_peer.
Proof. intros tr log fd len flags. cbn. left. split; reflexivity. Qed.

Lemma readHeader_short_or_failed_witness :
  let h :=
    fst (readHeader broken_peer (FcgiHeader.mk 9 9 9 9 9 9 9 9) (fresh_conn 3))
  in
  FcgiHeader.bytes h
  = [] ++ skipn (List.length (@nil Byte))
                (FcgiHeader.bytes (FcgiHeader.mk 9 9 9 9 9 9 9 9))
  /\ (-1 <= 0 -> h = FcgiHeader.mk 9 9 9 9 9 9 9 9).
Proof.
  apply (readHeader_short_or_failed broken_peer
           (FcgiHeader.mk 9 9 9 9 9 9 9 9) (fresh_conn 3)).
  exact broken_peer_conforms.
Defined.

(** ** The begin-request record on the wire *)

(** X21: the first eleven of the 16 bytes [startParams] sends are fixed by
    its arguments, whatever the local [msg] held: 01 01, the two request
    id bytes, 00 08 00 00 of the header, then 00, the role's number and 1
    or 0 for the keep-alive flag.  (The five bytes after them have no
    initialiser in the source; nothing is said of them here.) *)
Theorem startParams_body_on_wire (sys : Sys) (msg0 : FcgiRequestBegin.t)
    (role : FcgiRole) (keep_alive : bool) (request_id : Z) (s : State) :
  exists buf r,
    startParams sys msg0 role keep_alive request_id s
    = Some (to_int r,
            {| self := self s;
               trace := trace s
                          ++ [EvSend (FcgiManager.fcgifd_ (self s)) buf 0 r] |})
    /\ firstn 11 buf
       = [1; 1; (request_id / 256) mod 256; request_id mod 256; 0; 8; 0; 0;
          0; FcgiRole_val role; if keep_alive then 1 else 0]
    /\ Z.shiftl (nth 2 buf 0) 8 + nth 3 buf 0 = request_id mod 2 ^ 16
    /\ nth 8 buf 0 = 0
    /\ nth 9 buf 0 = FcgiRole_val role
    /\ nth 10 buf 0 = (if keep_alive then 1 else 0).
Proof.
  unfold startParams. cbv zeta. rewrite doWrite_spec. cbv zeta.
  rewrite (firstn_sizeof _ _ (FcgiRequestBegin_bytes_length _)).
  eexists. eexists. split; [reflexivity |].
  unfold FcgiRequestBegin.bytes, FcgiRequestBeginBody.bytes.
  cbn [FcgiRequestBegin.header FcgiRequestBegin.body
       FcgiRequestBeginBody.reserved FcgiRequestBeginBody.role1
       FcgiRequestBeginBody.role0 FcgiRequestBeginBody.flags
       FcgiRequestBeginBody.ctor].
  destruct (FcgiRequestBeginBody.reserved (FcgiRequestBegin.body msg0))
    as [[[[r0 r1] r2] r3] r4].
  split.
  { cbn [FcgiHeader.bytes FcgiHeader.ctor3 FcgiHeader.ctor app firstn
         FcgiHeader.version FcgiHeader.type FcgiHeader.request_id1
         FcgiHeader.request_id0 FcgiHeader.content_length1
         FcgiHeader.content_length0 FcgiHeader.padding_length
         FcgiHeader.reserved].
    rewrite !to_Byte_land_255, Z.shiftr_div_pow2 by lia.
    change (2 ^ 8) with 256.
    destruct role; reflexivity. }
  split.
  { cbn [FcgiHeader.bytes FcgiHeader.ctor3 FcgiHeader.ctor app nth
         FcgiHeader.request_id1 FcgiHeader.request_id0].
    apply split_combine. }
  split; [destruct role; reflexivity |].
  split; [destruct role; reflexivity |].
  reflexivity.
Qed.
